(** * Order lifecycle of the Pure & Desi backend

    Shallow embedding of the request handlers that read or write an
    order's [payment_status] and [order_status]:
    - [app/models/order.py], [app/models/delivery.py], [app/models/customer.py]
      (the mapped columns that the handlers touch);
    - [app/api/routes/orders.py]: [create_order], [track_order], [cancel_order],
      and the module-local [generate_order_id];
    - [app/api/routes/payments.py]: [verify_razorpay_payment];
    - [app/api/routes/admin_orders.py]: [verify_admin_access],
      [update_order_status], [create_shipment];
    - [app/api/routes/delivery.py]: the [update_status] action of
      [handle_delivery_request].

    The database is a record of tables (lists of rows).  A row is only
    changed when the handler commits; an INSERT is refused when it breaks a
    UNIQUE column of its table (SQLAlchemy then raises [IntegrityError]);
    whether the database accepts the items of a new order is an input of
    [create_order] (see [insert_items]).
    The third-party adapters (Razorpay, Shiprocket) are parameters of the
    handlers: their answers are inputs of the model.

    Python [float] amounts are modelled as [Z]: no property below depends
    on rounding.  Python [str.lower], [str.upper] and [str.title] are
    modelled on ASCII letters. *)

From Stdlib Require Import String Ascii List Bool Arith ZArith Lia.
From Stdlib Require QArith Lqa.
Import ListNotations.
Open Scope string_scope.
Open Scope nat_scope.

(* ------------------------------------------------------------------ *)
(** ** Strings *)

Module Str.

Definition lower_char (c : ascii) : ascii :=
  let n := nat_of_ascii c in
  if (65 <=? n) && (n <=? 90) then ascii_of_nat (n + 32) else c.

Definition upper_char (c : ascii) : ascii :=
  let n := nat_of_ascii c in
  if (97 <=? n) && (n <=? 122) then ascii_of_nat (n - 32) else c.

Definition is_alpha (c : ascii) : bool :=
  let n := nat_of_ascii c in
  ((65 <=? n) && (n <=? 90)) || ((97 <=? n) && (n <=? 122)).

(** [s.lower()] *)
Fixpoint lower (s : string) : string :=
  match s with
  | EmptyString => EmptyString
  | String c s' => String (lower_char c) (lower s')
  end.

(** [s.upper()] *)
Fixpoint upper (s : string) : string :=
  match s with
  | EmptyString => EmptyString
  | String c s' => String (upper_char c) (upper s')
  end.

(** [s.title()]: a letter is upper-cased when it follows a non-letter,
    lower-cased otherwise. *)
Fixpoint title_from (prev_alpha : bool) (s : string) : string :=
  match s with
  | EmptyString => EmptyString
  | String c s' =>
      let c' := if is_alpha c
                then (if prev_alpha then lower_char c else upper_char c)
                else c in
      String c' (title_from (is_alpha c) s')
  end.

Definition title (s : string) : string := title_from false s.

Fixpoint is_prefix (p s : string) : bool :=
  match p, s with
  | EmptyString, _ => true
  | String _ _, EmptyString => false
  | String a p', String b s' => Ascii.eqb a b && is_prefix p' s'
  end.

(** [sub in s] *)
Fixpoint contains (sub s : string) : bool :=
  is_prefix sub s ||
  match s with
  | EmptyString => false
  | String _ s' => contains sub s'
  end.


(** Python truthiness of an optional string: [None] and [""] are false. *)
Definition truthy (o : option string) : bool :=
  match o with
  | Some (String _ _) => true
  | _ => false
  end.

End Str.

(* ------------------------------------------------------------------ *)
(** ** Data model ([app/models]) *)

(** [class OrderStatus(str, enum.Enum)] *)
Inductive OrderStatus :=
| PENDING | CONFIRMED | PROCESSING | SHIPPED | DELIVERED | CANCELLED | REFUNDED.

(** [class PaymentStatus(str, enum.Enum)] *)
Inductive PaymentStatus := PAY_PENDING | PAID | FAILED | PAY_REFUNDED | COD.

Definition OrderStatus_eqb (a b : OrderStatus) : bool :=
  match a, b with
  | PENDING, PENDING | CONFIRMED, CONFIRMED | PROCESSING, PROCESSING
  | SHIPPED, SHIPPED | DELIVERED, DELIVERED | CANCELLED, CANCELLED
  | REFUNDED, REFUNDED => true
  | _, _ => false
  end.

(** [OrderStatus(value)]: the value strings of the enum. *)
Definition OrderStatus_of_value (v : string) : option OrderStatus :=
  if String.eqb v "pending" then Some PENDING
  else if String.eqb v "confirmed" then Some CONFIRMED
  else if String.eqb v "processing" then Some PROCESSING
  else if String.eqb v "shipped" then Some SHIPPED
  else if String.eqb v "delivered" then Some DELIVERED
  else if String.eqb v "cancelled" then Some CANCELLED
  else if String.eqb v "refunded" then Some REFUNDED
  else None.

(** A row of table [orders] (the columns the handlers use).  Rows are
    identified by their [order_id] string; [order_items] and [deliveries]
    refer to an order through it. *)
Record OrderRow := mkOrder {
  order_id : string;
  customer_id : nat;
  shipping_email : string;
  subtotal : Z;
  shipping_cost : option Z;
  total : Z;
  payment_method : string;
  payment_status : PaymentStatus;
  razorpay_order_id : option string;
  razorpay_payment_id : option string;
  order_status : OrderStatus;
  waybill_number : option string;
  estimated_delivery : option string;
  delivered_at : option nat;
  admin_notes : option string;
  updated_at : option nat
}.

(** A row of table [order_items]. *)
Record ItemRow := mkItem {
  item_order : string;
  item_product_id : nat;
  item_quantity : nat;
  item_price : Z
}.

(** A row of table [customers]: [phone] and [email] are UNIQUE, nullable. *)
Record CustomerRow := mkCustomer {
  cust_id : nat;
  cust_phone : option string;
  cust_email : option string
}.

(** A row of table [deliveries]: [order_id] and [waybill_number] are UNIQUE. *)
Record DeliveryRow := mkDelivery {
  dlv_order : string;
  dlv_waybill : option string;
  dlv_shipment_id : option string;
  dlv_status : option string
}.

(** The database, and the number of calls made to the payment gateway's
    signature verification. *)
Record World := mkWorld {
  orders : list OrderRow;
  items : list ItemRow;
  customers : list CustomerRow;
  deliveries : list DeliveryRow;
  gateway_calls : nat
}.

(** The attributes [shiprocket_order_id], [shipment_id], [awb_code],
    [courier_id] and [courier_name] are NOT columns of [Order]: they exist
    on an instance only once a handler has assigned them.  An instance read
    from the database has none of them ([None] below), and reading one then
    raises [AttributeError]. *)
Record SrAttrs := mkSr {
  sr_order_id : option string;
  sr_shipment_id : option string;
  sr_awb_code : option string
}.

(** Responses: a JSON body, or an [HTTPException]. *)
Inductive Resp :=
| Json (body : list (string * string))
| HttpError (code : nat) (detail : string).

(* ------------------------------------------------------------------ *)
(** ** Queries and updates *)

Definition find_order (ref : string) (w : World) : option OrderRow :=
  find (fun o => String.eqb (order_id o) ref) (orders w).

Definition find_delivery (ref : string) (w : World) : option DeliveryRow :=
  find (fun d => String.eqb (dlv_order d) ref) (deliveries w).

Definition find_delivery_by_waybill (wb : string) (w : World) : option DeliveryRow :=
  find (fun d => match dlv_waybill d with
                 | Some x => String.eqb x wb
                 | None => false
                 end) (deliveries w).

(** [UPDATE orders SET ... WHERE order_id = ref] *)
Definition update_order (ref : string) (f : OrderRow -> OrderRow) (w : World) : World :=
  mkWorld (map (fun o => if String.eqb (order_id o) ref then f o else o) (orders w))
          (items w) (customers w) (deliveries w) (gateway_calls w).

Definition update_delivery (ref : string) (f : DeliveryRow -> DeliveryRow) (w : World) : World :=
  mkWorld (orders w) (items w) (customers w)
          (map (fun d => if String.eqb (dlv_order d) ref then f d else d) (deliveries w))
          (gateway_calls w).

Definition set_status (s : OrderStatus) (o : OrderRow) : OrderRow :=
  mkOrder (order_id o) (customer_id o) (shipping_email o) (subtotal o)
    (shipping_cost o) (total o) (payment_method o) (payment_status o)
    (razorpay_order_id o) (razorpay_payment_id o) s (waybill_number o)
    (estimated_delivery o) (delivered_at o) (admin_notes o) (updated_at o).

Definition set_delivery_status (st : string) (d : DeliveryRow) : DeliveryRow :=
  mkDelivery (dlv_order d) (dlv_waybill d) (dlv_shipment_id d) (Some st).

Definition opt_eqb (a b : option string) : bool :=
  match a, b with
  | Some x, Some y => String.eqb x y
  | _, _ => false
  end.

(** INSERTs, refused on a UNIQUE violation. *)
Definition insert_order (o : OrderRow) (w : World) : option World :=
  if existsb (fun o' => String.eqb (order_id o') (order_id o)) (orders w) then None
  else Some (mkWorld (orders w ++ [o]) (items w) (customers w) (deliveries w)
                     (gateway_calls w)).

(** The [order_items] INSERTs of one commit.  [ok] tells whether the
    database accepts them: PostgreSQL refuses them when a [product_id] is
    not an id of [products] (foreign key), when a value is outside the range
    of its [Integer] column, or when a string is longer than its column
    ([IntegrityError] or [DataError]); nothing of the commit is stored then. *)
Definition insert_items (ok : bool) (its : list ItemRow) (w : World) : option World :=
  if ok then Some (mkWorld (orders w) (items w ++ its) (customers w) (deliveries w)
                           (gateway_calls w))
  else None.

Definition insert_customer (c : CustomerRow) (w : World) : option World :=
  if existsb (fun c' => opt_eqb (cust_phone c') (cust_phone c)
                        || opt_eqb (cust_email c') (cust_email c)) (customers w)
  then None
  else Some (mkWorld (orders w) (items w) (customers w ++ [c]) (deliveries w)
                     (gateway_calls w)).

Definition insert_delivery (d : DeliveryRow) (w : World) : option World :=
  if existsb (fun d' => String.eqb (dlv_order d') (dlv_order d)
                        || opt_eqb (dlv_waybill d') (dlv_waybill d)) (deliveries w)
  then None
  else Some (mkWorld (orders w) (items w) (customers w) (deliveries w ++ [d])
                     (gateway_calls w)).

Definition set_delivered_at (t : option nat) (o : OrderRow) : OrderRow :=
  mkOrder (order_id o) (customer_id o) (shipping_email o) (subtotal o)
    (shipping_cost o) (total o) (payment_method o) (payment_status o)
    (razorpay_order_id o) (razorpay_payment_id o) (order_status o) (waybill_number o)
    (estimated_delivery o) t (admin_notes o) (updated_at o).

Definition set_admin_notes (n : string) (o : OrderRow) : OrderRow :=
  mkOrder (order_id o) (customer_id o) (shipping_email o) (subtotal o)
    (shipping_cost o) (total o) (payment_method o) (payment_status o)
    (razorpay_order_id o) (razorpay_payment_id o) (order_status o) (waybill_number o)
    (estimated_delivery o) (delivered_at o) (Some n) (updated_at o).

Definition set_waybill (wb : option string) (o : OrderRow) : OrderRow :=
  mkOrder (order_id o) (customer_id o) (shipping_email o) (subtotal o)
    (shipping_cost o) (total o) (payment_method o) (payment_status o)
    (razorpay_order_id o) (razorpay_payment_id o) (order_status o) wb
    (estimated_delivery o) (delivered_at o) (admin_notes o) (updated_at o).

Definition set_estimated_delivery (est : string) (o : OrderRow) : OrderRow :=
  mkOrder (order_id o) (customer_id o) (shipping_email o) (subtotal o)
    (shipping_cost o) (total o) (payment_method o) (payment_status o)
    (razorpay_order_id o) (razorpay_payment_id o) (order_status o) (waybill_number o)
    (Some est) (delivered_at o) (admin_notes o) (updated_at o).

(** The assignments of [verify_razorpay_payment] after a verified signature. *)
Definition mark_paid (rzp_order rzp_payment : string) (now : nat) (o : OrderRow) : OrderRow :=
  mkOrder (order_id o) (customer_id o) (shipping_email o) (subtotal o)
    (shipping_cost o) (total o) "online" PAID
    (Some rzp_order) (Some rzp_payment) CONFIRMED (waybill_number o)
    (estimated_delivery o) (delivered_at o) (admin_notes o) (Some now).

Definition OrderStatus_value (s : OrderStatus) : string :=
  match s with
  | PENDING => "pending" | CONFIRMED => "confirmed" | PROCESSING => "processing"
  | SHIPPED => "shipped" | DELIVERED => "delivered" | CANCELLED => "cancelled"
  | REFUNDED => "refunded"
  end.

(* ------------------------------------------------------------------ *)
(** ** [admin_orders.py] *)

Module AdminOrders.

(** What a handler raises: an [HTTPException], or another exception with
    its [str]. *)
Inductive Exc :=
| HTTPException (status_code : nat) (detail : string)
| OtherException (message : string).

(** [verify_admin_access(email, phone, db)].  [formatted_phone] is the
    phone after [''.join(filter(str.isdigit, phone))] and the "91" prefix
    rule; it is looked up only when no email is given.  The mapped class
    [Customer] has no [is_admin] attribute (no such [Column]), so reading
    [customer.is_admin] on a found customer raises [AttributeError]: the
    function never returns a customer. *)
Definition verify_admin_access (email phone : option string) (formatted_phone : string)
    (w : World) : Exc + CustomerRow :=
  if negb (Str.truthy email) && negb (Str.truthy phone) then
    inl (HTTPException 401 "Email or phone required for authentication")
  else
  let customer :=
    if Str.truthy email then find (fun c => opt_eqb (cust_email c) email) (customers w)
    else find (fun c => opt_eqb (cust_phone c) (Some formatted_phone)) (customers w) in
  match customer with
  | None => inl (HTTPException 404 "User not found")
  | Some _ => inl (OtherException "'Customer' object has no attribute 'is_admin'")
  end.

(** [except HTTPException: raise] /
    [except Exception as e: raise HTTPException(status_code=500, detail=str(e))] *)
Definition admin_error (e : Exc) : Resp :=
  match e with
  | HTTPException c d => HttpError c d
  | OtherException m => HttpError 500 m
  end.

(** [PUT /orders/{order_id}/status]. *)
Definition update_order_status (email phone : option string) (formatted_phone : string)
    (ref status : string) (now : nat) (w : World) : Resp * World :=
  match verify_admin_access email phone formatted_phone w with
  | inl e => (admin_error e, w)
  | inr _ =>
    match find_order ref w with
    | None => (HttpError 404 "Order not found", w)
    | Some o =>
      match OrderStatus_of_value status with
      | None => (HttpError 400 "Invalid status", w)
      | Some s =>
        let set_da := String.eqb status "delivered" &&
                      match delivered_at o with None => true | Some _ => false end in
        let w' := update_order ref (fun o =>
                    let o1 := set_status s o in
                    if set_da then set_delivered_at (Some now) o1 else o1) w in
        (Json [("success", "true"); ("order_id", ref);
               ("old_status", OrderStatus_value (order_status o));
               ("new_status", OrderStatus_value s)], w')
      end
    end
  end.

(** [POST /orders/{order_id}/ship].  [digits] is the 12-digit string drawn
    by [random.choices(string.digits, k=12)]. *)
Definition create_shipment (email phone : option string) (formatted_phone : string)
    (ref digits : string) (w : World) : Resp * World :=
  match verify_admin_access email phone formatted_phone w with
  | inl e => (admin_error e, w)
  | inr _ =>
    match find_order ref w with
    | None => (HttpError 404 "Order not found", w)
    | Some o =>
      if Str.truthy (waybill_number o) then
        (Json [("success", "false"); ("message", "Shipment already exists")], w)
      else
        let waybill := "WB" ++ digits in
        let w' := update_order ref (fun o =>
                    set_estimated_delivery "3-5 business days"
                      (set_status SHIPPED (set_waybill (Some waybill) o))) w in
        (Json [("success", "true"); ("waybill_number", waybill);
               ("order_status", "shipped")], w')
    end
  end.

End AdminOrders.

(* ------------------------------------------------------------------ *)
(** ** [delivery.py], action [update_status] of [handle_delivery_request] *)

Module DeliveryRoutes.

(** The [status_update] dict: its ["status"] entry.  ([location],
    [description], the per-stage timestamps and [tracking_history] of the
    delivery row are written too; no order column depends on them.) *)
Record StatusUpdate := mkStatusUpdate { su_status : string }.

Definition update_status (waybill : option string) (status_update : option StatusUpdate)
    (now : nat) (w : World) : Resp * World :=
  match waybill, status_update with
  | Some wb, Some su =>
    if negb (Str.truthy (Some wb)) then (HttpError 400 "Required data missing", w) else
    match find_delivery_by_waybill wb w with
    | None => (HttpError 404 "Delivery not found", w)
    | Some d =>
      let w1 := update_delivery (dlv_order d) (set_delivery_status (su_status su)) w in
      let status_lower := Str.lower (su_status su) in
      let w2 :=
        if Str.contains "picked" status_lower || Str.contains "pickup" status_lower then w1
        else if Str.contains "transit" status_lower then w1
        else if Str.contains "out for delivery" status_lower then w1
        else if Str.contains "delivered" status_lower then
          match find_order (dlv_order d) w1 with
          | Some _ => update_order (dlv_order d)
                        (fun o => set_delivered_at (Some now) (set_status DELIVERED o)) w1
          | None => w1
          end
        else w1 in
      (Json [("success", "true"); ("waybill_number", wb); ("status", su_status su)], w2)
    end
  | _, _ => (HttpError 400 "Required data missing", w)
  end.

End DeliveryRoutes.

(* ------------------------------------------------------------------ *)
(** ** Answers of the Shiprocket adapter ([shiprocket_service]) *)

(** An adapter call either raises or returns a value. *)
Inductive Adapter (A : Type) := Raised | Returned (a : A).
Arguments Raised {A}.
Arguments Returned {A} a.

(** The dict returned by [create_shipment]. *)
Record ShipResult := mkShipResult {
  sh_success : bool;
  sh_order_id : option string;
  sh_shipment_id : option string;
  sh_awb_code : option string;
  sh_waybill : option string;
  sh_message : option string;
  sh_dump : string   (* json.dumps(shipment_result) *)
}.

(** The dict returned by [get_order_details]: ["success"], ["status"]. *)
Record Details := mkDetails { det_success : bool; det_status : string }.

(** The dict returned by [track_shipment]: ["success"], ["current_status"]. *)
Record Tracking := mkTracking { trk_success : bool; trk_status : string }.

(** [x or y] on optional strings. *)
Definition py_or (x y : option string) : option string :=
  if Str.truthy x then x else y.

(* ------------------------------------------------------------------ *)
(** ** [orders.py] *)

Module OrdersRoutes.

(** [generate_order_id()]: [ts] is [datetime.now().strftime("%Y%m%d%H%M%S")]. *)
Definition generate_order_id (ts : string) : string := "PD" ++ ts.

(** The status update of [track_order] from the lower-cased live tracking
    status: [Some (new order status, new delivery status)] when
    [status_updated] is set, [None] otherwise. *)
Definition live_status_update (shiprocket_status : string) (cur : OrderStatus)
    : option (OrderStatus * string) :=
  if Str.contains "delivered" shiprocket_status then
    if OrderStatus_eqb cur DELIVERED then None else Some (DELIVERED, "Delivered")
  else if existsb (fun x => Str.contains x shiprocket_status)
                  ["transit"; "picked"; "dispatched"; "out for delivery"] then
    if OrderStatus_eqb cur SHIPPED || OrderStatus_eqb cur DELIVERED then None
    else Some (SHIPPED, Str.title shiprocket_status)
  else if Str.contains "pickup scheduled" shiprocket_status
          || Str.contains "manifest" shiprocket_status then
    if OrderStatus_eqb cur CONFIRMED then Some (PROCESSING, "Processing") else None
  else None.

Definition status_of (ref : string) (dflt : OrderStatus) (w : World) : OrderStatus :=
  match find_order ref w with Some o => order_status o | None => dflt end.

(** [GET /{order_id}/track], for an order instance whose non-column
    attributes are [sr] ([None]: none assigned). *)
Definition track_order_with (sr : option SrAttrs) (details : Adapter Details)
    (tracking : Adapter Tracking) (ref email : string) (w : World) : Resp * World :=
  match find_order ref w with
  | None => (HttpError 404 "Order not found", w)
  | Some o =>
    if negb (String.eqb (Str.lower (shipping_email o)) (Str.lower email)) then
      (HttpError 403 "Not authorized to track this order", w)
    else
    let delivery := find_delivery ref w in
    match sr with
    | None =>
      (* [if order.shiprocket_order_id:] outside any try block *)
      (HttpError 500 "AttributeError: shiprocket_order_id", w)
    | Some a =>
      (* FIRST: order details *)
      let w1 :=
        if Str.truthy (sr_order_id a) then
          match details with
          | Returned dt =>
            if det_success dt && String.eqb (Str.upper (det_status dt)) "CANCELED"
               && negb (OrderStatus_eqb (order_status o) CANCELLED) then
              let w' := update_order ref (set_status CANCELLED) w in
              match delivery with
              | Some _ => update_delivery ref (set_delivery_status "CANCELED") w'
              | None => w'
              end
            else w
          | Raised => w
          end
        else w in
      let cur := status_of ref (order_status o) w1 in
      (* SECOND: live tracking *)
      let w2 :=
        match delivery with
        | Some d =>
          if Str.truthy (dlv_shipment_id d) && negb (OrderStatus_eqb cur CANCELLED) then
            match tracking with
            | Returned t =>
              if trk_success t then
                match live_status_update (Str.lower (trk_status t)) cur with
                | Some (s', dst) =>
                  update_delivery ref (set_delivery_status dst)
                    (update_order ref (set_status s') w1)
                | None => w1
                end
              else w1
            | Raised => w1
            end
          else w1
        | None => w1
        end in
      (Json [("orderId", ref);
             ("status", OrderStatus_value (status_of ref (order_status o) w2))], w2)
    end
  end.


(** [POST /{order_id}/cancel].  [reason] is [reason.get('reason')];
    [cancel_raises] tells whether the body of the shipment-cancellation
    [try] block raises. *)
Definition cancel_order (ref : string) (reason : option string) (cancel_raises : bool)
    (w : World) : Resp * World :=
  match find_order ref w with
  | None => (HttpError 404 "Order not found", w)
  | Some o =>
    if OrderStatus_eqb (order_status o) DELIVERED
       || OrderStatus_eqb (order_status o) CANCELLED then
      (HttpError 400 ("Cannot cancel order with status: " ++
                      OrderStatus_value (order_status o)), w)
    else
    let w1 :=
      match find_delivery ref w with
      | Some d =>
        if Str.truthy (dlv_shipment_id d) then
          if cancel_raises then w
          else update_delivery ref (set_delivery_status "Cancelled") w
        else w
      | None => w
      end in
    let why := match reason with Some r => r | None => "User requested cancellation" end in
    let w2 := update_order ref (fun o => set_admin_notes ("Cancelled: " ++ why)
                                           (set_status CANCELLED o)) w1 in
    (Json [("success", "true"); ("message", "Order cancelled successfully");
           ("orderId", ref)], w2)
  end.

(** The fields of [CreateOrderRequest] that [create_order] stores. *)
Record ItemReq := mkItemReq { it_product_id : nat; it_quantity : nat; it_price : Z }.

Record CreateOrderRequest := mkCreateOrderRequest {
  req_items : list ItemReq;
  req_email : string;
  req_paymentMethod : string;
  req_userPhone : option string;
  req_shippingCharge : option Z;
  req_subtotal : option Z;
  req_total : option Z
}.

(** The local variables [subtotal], [shipping_cost], [total] and
    [total_weight] after the first [if]; a Python name never bound is
    [None]. *)
Record Charges := mkCharges {
  ch_subtotal : option Z;
  ch_shipping_cost : option Z;
  ch_total : Z;
  ch_total_weight : option nat
}.

Definition charges (req : CreateOrderRequest) (calculated_shipping : Z) : Charges :=
  match req_total req with
  | Some t => mkCharges (req_subtotal req) (req_shippingCharge req) t None
  | None =>
    let sub := fold_right (fun it acc => (it_price it * Z.of_nat (it_quantity it) + acc)%Z)
                          0%Z (req_items req) in
    let tw := fold_right (fun it acc => it_quantity it + acc) 0 (req_items req) in
    mkCharges (Some sub) (Some calculated_shipping) (sub + calculated_shipping)%Z (Some tw)
  end.

(** Get or create the customer: the world after the commit and
    [customer.id], or [None] when the INSERT is refused. *)
Definition get_or_create_customer (req : CreateOrderRequest) (w : World)
    : option (World * nat) :=
  let found :=
    if Str.truthy (req_userPhone req) then
      find (fun c => opt_eqb (cust_phone c) (req_userPhone req)) (customers w)
    else None in
  match found with
  | Some c => Some (w, cust_id c)
  | None =>
    let c := mkCustomer (S (length (customers w))) (req_userPhone req) (Some (req_email req)) in
    match insert_customer c w with
    | Some w' => Some (w', cust_id c)
    | None => None
    end
  end.

Definition internal_error : Resp :=
  HttpError 500 "Internal server error during order creation.".

Definition shipment_failed_detail (r : ShipResult) : string :=
  "Order placed but shipment booking failed. Please retry later or contact support. Error: "
  ++ match sh_message r with Some m => m | None => "Shiprocket failed to create shipment." end.

(** The reply of a created order (its keys that carry no amount). *)
Definition created_reply (order_id_str : string) : Resp :=
  Json [("success", "true"); ("message", "Order created successfully");
        ("orderId", order_id_str); ("shipmentCreated", "true")].

(** [POST /create].  [ts] is the formatted current time,
    [calculated_shipping] the value of [calculate_shipping_cost] (which
    catches its own errors), [items_ok] whether the database accepts the
    commit of the order's items (see [insert_items]) and [ship] the answer
    of [shiprocket_service.create_shipment].  Every exception is caught by the
    outer [except]: [db.rollback()] (which only drops what is not
    committed), then the [HTTPException] is re-raised or replaced by a
    generic 500. *)
Definition create_order (req : CreateOrderRequest) (ts : string) (calculated_shipping : Z)
    (items_ok : bool) (ship : Adapter ShipResult) (w : World) : Resp * World :=
  let ch := charges req calculated_shipping in
  let order_id_str := generate_order_id ts in
  match get_or_create_customer req w with
  | None => (internal_error, w)                      (* IntegrityError *)
  | Some (w1, cid) =>
    match ch_subtotal ch with
    | None => (internal_error, w1)                   (* subtotal is NOT NULL *)
    | Some sub =>
      let new_order :=
        mkOrder order_id_str cid (req_email req) sub (ch_shipping_cost ch) (ch_total ch)
          (req_paymentMethod req)
          (if String.eqb (req_paymentMethod req) "cod" then COD else PAY_PENDING)
          None None CONFIRMED None (Some "3-5 business days") None None None in
      match insert_order new_order w1 with
      | None => (internal_error, w1)                 (* order_id is UNIQUE *)
      | Some w2 =>
        match insert_items items_ok
                (map (fun it => mkItem order_id_str (it_product_id it) (it_quantity it)
                                       (it_price it)) (req_items req)) w2 with
        | None => (internal_error, w2)               (* the items commit is refused *)
        | Some w3 =>
        match ch_total_weight ch with
        | None => (internal_error, w3)               (* NameError: total_weight *)
        | Some tw =>
          match ship with
          | Raised => (internal_error, w3)
          | Returned r =>
            if sh_success r then
              let awb := py_or (sh_awb_code r) (sh_waybill r) in
              let w4 := update_order order_id_str
                          (fun o => set_status PROCESSING
                                      (set_waybill awb o)) w3 in
              match insert_delivery (mkDelivery order_id_str awb (sh_shipment_id r)
                                                (Some "Pickup Scheduled")) w4 with
              | None => (internal_error, w3)         (* the single commit is refused *)
              | Some w5 => (created_reply order_id_str, w5)
              end
            else
              let w4 := update_order order_id_str
                          (set_admin_notes ("Shiprocket Failed (Live): " ++ sh_dump r)) w3 in
              (HttpError 500 (shipment_failed_detail r), w4)
          end
        end
        end
      end
    end
  end.

End OrdersRoutes.

(* ------------------------------------------------------------------ *)
(** ** [payments.py] *)

Module Payments.

Record RazorpayPaymentVerify := mkVerify {
  rzp_order_id : string;
  rzp_payment_id : string;
  rzp_signature : string;
  pv_order_id : string
}.

Definition inc_gateway_calls (w : World) : World :=
  mkWorld (orders w) (items w) (customers w) (deliveries w) (S (gateway_calls w)).

(** [POST /razorpay/verify], for an order instance whose non-column
    attributes are [sr].  [verified] is the ["verified"] entry returned by
    [payment_service.verify_payment] (which catches its own exceptions);
    [ship] is the answer of [shiprocket_service.create_shipment]
    ([Raised] also stands for an exception raised while building its
    payload). *)
Definition verify_razorpay_payment_with (sr : option SrAttrs) (verified : bool)
    (ship : Adapter ShipResult) (data : RazorpayPaymentVerify) (now : nat) (w : World)
    : Resp * World :=
  let w0 := inc_gateway_calls w in
  if verified then
    let ref := pv_order_id data in
    let w1 :=
      match find_order ref w0 with
      | None => w0
      | Some _ =>
        let wpaid := update_order ref
                       (mark_paid (rzp_order_id data) (rzp_payment_id data) now) w0 in
        match sr with
        | None => wpaid   (* AttributeError: caught by [except db_error], rollback *)
        | Some a =>
          if Str.truthy (sr_order_id a) then wpaid else
          match ship with
          | Raised => wpaid
          | Returned r =>
            if sh_success r then
              let wproc := update_order ref (set_status PROCESSING) wpaid in
              let awb := py_or (sh_awb_code r) (sh_waybill r) in
              match insert_delivery (mkDelivery ref awb (sh_shipment_id r)
                                                (Some "Order Placed")) wproc with
              | Some w' => w'
              | None => wproc
              end
            else wpaid
          end
        end
      end in
    (Json [("success", "true"); ("verified", "true");
           ("message", "Payment verified successfully");
           ("payment_id", rzp_payment_id data); ("order_id", ref)], w1)
  else
    (Json [("success", "false"); ("verified", "false");
           ("message", "Payment verification failed")], w0).

(** The handler as deployed: the order is read by [db.query(Order)]. *)
Definition verify_razorpay_payment (verified : bool) (ship : Adapter ShipResult)
    (data : RazorpayPaymentVerify) (now : nat) (w : World) : Resp * World :=
  verify_razorpay_payment_with None verified ship data now w.



End Payments.

(* ------------------------------------------------------------------ *)
(** ** Sequences of requests *)

Module Lifecycle.
Import OrdersRoutes Payments AdminOrders DeliveryRoutes.

Inductive Op :=
| OpAdminStatus (email phone : option string) (formatted_phone ref status : string)
                (now : nat)
| OpAdminShip (email phone : option string) (formatted_phone ref digits : string)
| OpTrack (sr : option SrAttrs) (details : Adapter Details) (tracking : Adapter Tracking)
          (ref email : string)
| OpDeliveryUpdate (waybill : option string) (su : option StatusUpdate) (now : nat)
| OpCancel (ref : string) (reason : option string) (cancel_raises : bool)
| OpVerify (sr : option SrAttrs) (verified : bool) (ship : Adapter ShipResult)
           (data : RazorpayPaymentVerify) (now : nat)
| OpCreate (req : CreateOrderRequest) (ts : string) (calculated_shipping : Z)
           (items_ok : bool) (ship : Adapter ShipResult).

Definition handle (op : Op) (w : World) : Resp * World :=
  match op with
  | OpAdminStatus e p fp ref st now => update_order_status e p fp ref st now w
  | OpAdminShip e p fp ref digits => create_shipment e p fp ref digits w
  | OpTrack sr det trk ref email => track_order_with sr det trk ref email w
  | OpDeliveryUpdate wb su now => update_status wb su now w
  | OpCancel ref reason r => cancel_order ref reason r w
  | OpVerify sr v ship data now => verify_razorpay_payment_with sr v ship data now w
  | OpCreate req ts c ok ship => create_order req ts c ok ship w
  end.

Definition step (op : Op) (w : World) : World := snd (handle op w).

Fixpoint run (ops : list Op) (w : World) : World :=
  match ops with
  | [] => w
  | op :: ops' => run ops' (step op w)
  end.

(** Tracking reconciliation, the admin status update and delivery status
    updates. *)
Definition status_op (op : Op) : bool :=
  match op with
  | OpTrack _ _ _ _ _ | OpAdminStatus _ _ _ _ _ _ | OpDeliveryUpdate _ _ _ => true
  | _ => false
  end.

(** Position on the chain Processing -> Shipped -> Delivered. *)
Definition chain_rank (s : OrderStatus) : option nat :=
  match s with
  | PROCESSING => Some 0
  | SHIPPED => Some 1
  | DELIVERED => Some 2
  | _ => None
  end.

(** [s'] is behind [s] on the chain. *)
Definition regresses (s s' : OrderStatus) : bool :=
  match chain_rank s, chain_rank s' with
  | Some a, Some b => b <? a
  | _, _ => false
  end.

(** The order [ref] is Shipped while no shipment reference is recorded: no
    waybill on the order, no delivery row with a shipment id. *)
Definition has_shipment_ref (w : World) (o : OrderRow) : Prop :=
  Str.truthy (waybill_number o) = true \/
  exists d, In d (deliveries w) /\ dlv_order d = order_id o /\
            Str.truthy (dlv_shipment_id d) = true.

Definition shipped_has_ref (w : World) : Prop :=
  forall o, In o (orders w) -> order_status o = SHIPPED -> has_shipment_ref w o.

(** How far an order has gone: Delivered and Cancelled are the end
    points; Refunded (set by no handler but the admin override) sits with
    Pending. *)
Definition progress (s : OrderStatus) : nat :=
  match s with
  | PENDING | REFUNDED => 0
  | CONFIRMED => 1
  | PROCESSING => 2
  | SHIPPED => 3
  | DELIVERED | CANCELLED => 4
  end.

(** No order of [w] has gone back in [w']. *)
Definition mono (w w' : World) : Prop :=
  forall ref o, find_order ref w = Some o ->
    exists o', find_order ref w' = Some o' /\
               progress (order_status o) <= progress (order_status o').

(** Every delivery row of [w] is still in [w'] with its order and shipment id. *)
Definition dl_incl (w w' : World) : Prop :=
  forall d, In d (deliveries w) ->
    exists d', In d' (deliveries w') /\ dlv_order d' = dlv_order d /\
               dlv_shipment_id d' = dlv_shipment_id d.

End Lifecycle.

(* ------------------------------------------------------------------ *)
(** ** Sample data *)

Module Samples.
Import OrdersRoutes Payments AdminOrders DeliveryRoutes Lifecycle.

Definition delivered_order : OrderRow :=
  mkOrder "PD20251025101010" 1 "buyer@example.com" 500%Z (Some 50%Z) 550%Z "online"
    PAID (Some "order_rzp1") (Some "pay_rzp1") DELIVERED (Some "AWB123")
    (Some "3-5 business days") (Some 7) None None.

Definition world_delivered : World :=
  mkWorld [delivered_order] [] [] [mkDelivery "PD20251025101010" (Some "AWB123") (Some "SHP1") (Some "Delivered")] 0.

Definition status_ops : list Op :=
  [OpTrack None Raised (Returned (mkTracking true "In Transit"))
     "PD20251025101010" "buyer@example.com";
   OpAdminStatus (Some "buyer@example.com") None "" "PD20251025101010" "processing" 8;
   OpDeliveryUpdate (Some "AWB123") (Some (mkStatusUpdate "Picked up")) 9].

Definition confirmed_order : OrderRow :=
  mkOrder "PD20251026090000" 2 "buyer@example.com" 500%Z (Some 50%Z) 550%Z "cod"
    COD None None CONFIRMED None (Some "3-5 business days") None None None.

Definition world_confirmed : World := mkWorld [confirmed_order] [] [] [] 0.

Definition empty_world : World := mkWorld [] [] [] [] 0.

Definition sample_request : CreateOrderRequest :=
  mkCreateOrderRequest [mkItemReq 3 2 250%Z] "buyer@example.com" "online"
    (Some "919876543210") None None None.

Definition lifecycle_ops : list Op :=
  [OpCreate sample_request "20251026090000" 50%Z true
     (Returned (mkShipResult true (Some "SR1") (Some "SHP1") (Some "AWB9") None None "{}"));
   OpAdminShip (Some "buyer@example.com") None "" "PD20251026090000" "123456789012";
   OpCancel "PD20251026090000" None false].

(** One order, at three points of its life. *)
Definition order_at (ps : PaymentStatus) (st : OrderStatus) : OrderRow :=
  mkOrder "PD20251027120000" 3 "buyer@example.com" 800%Z (Some 0%Z) 800%Z "online"
    ps None None st None (Some "3-5 business days") None None None.

Definition world_at (ps : PaymentStatus) (st : OrderStatus) : World :=
  mkWorld [order_at ps st] [] [] [] 0.


Definition proof_data : RazorpayPaymentVerify :=
  mkVerify "order_RZP42" "pay_RZP42" "5f2b0c" "PD20251027120000".

Definition failed_shipment : ShipResult :=
  mkShipResult false None None None None (Some "Pincode not serviceable")
    "{success: false}".




End Samples.

(* ------------------------------------------------------------------ *)
(** ** Python string operations of the helpers below (ASCII) *)

Module PyStr.

Definition is_digit_char (c : ascii) : bool :=
  let n := nat_of_ascii c in (48 <=? n) && (n <=? 57).

Fixpoint all_digits (s : string) : bool :=
  match s with
  | EmptyString => true
  | String c s' => is_digit_char c && all_digits s'
  end.

(** [''.join(filter(str.isdigit, s))] *)
Fixpoint filter_digits (s : string) : string :=
  match s with
  | EmptyString => EmptyString
  | String c s' => if is_digit_char c then String c (filter_digits s') else filter_digits s'
  end.

(** [s[n:]] *)
Fixpoint drop (n : nat) (s : string) : string :=
  match n, s with
  | 0, _ => s
  | S _, EmptyString => EmptyString
  | S n', String _ s' => drop n' s'
  end.

(** [s[:n]] *)
Fixpoint take (n : nat) (s : string) : string :=
  match n, s with
  | 0, _ => EmptyString
  | S _, EmptyString => EmptyString
  | S n', String c s' => String c (take n' s')
  end.

(** [d.get(k, default)] on a value that is [None] when the key is absent. *)
Definition dflt {A} (d : A) (o : option A) : A :=
  match o with Some x => x | None => d end.

(** A Python dict literal: when a key is written twice the last value
    wins. *)
Definition dict_get {V} (k : string) (l : list (string * V)) : option V :=
  fold_left (fun acc kv => if String.eqb (fst kv) k then Some (snd kv) else acc) l None.

End PyStr.

(** The result of an endpoint that answers a value or raises
    [HTTPException(status_code, detail)]. *)
Inductive HttpResult (A : Type) :=
| HOk (a : A)
| HErr (code : nat) (detail : string).
Arguments HOk {A} a.
Arguments HErr {A} code detail.

(* ------------------------------------------------------------------ *)
(** ** [app/config/shipping_config.py] *)

Module ShippingConfig.

Definition FREE_SHIPPING_THRESHOLD : Z := 999000000.
Definition DEFAULT_SHIPPING_CHARGE : Z := 50.

Definition is_free_shipping_eligible (subtotal : Z) : bool :=
  (FREE_SHIPPING_THRESHOLD <=? subtotal)%Z.

Definition get_shipping_charge (subtotal calculated_charge : Z) : Z :=
  if is_free_shipping_eligible subtotal then 0%Z else calculated_charge.

Definition get_amount_needed_for_free_shipping (subtotal : Z) : Z :=
  let remaining := (FREE_SHIPPING_THRESHOLD - subtotal)%Z in
  if (0 <? remaining)%Z then remaining else 0%Z.

End ShippingConfig.

(* ------------------------------------------------------------------ *)
(** ** [app/services/shiprocket_service.py]: phone numbers and pincode
    serviceability *)

Module ShiprocketSvc.
Import PyStr.

Definition format_phone_number (phone : string) : string :=
  let phone := filter_digits phone in
  let phone := if Str.is_prefix "91" phone && (String.length phone =? 12)
               then drop 2 phone else phone in
  if Str.is_prefix "0" phone && (String.length phone =? 11) then drop 1 phone else phone.

(** The dict returned by [check_pincode_serviceability]: each field is
    [None] when the key is absent. *)
Record SvResult := mkSv {
  sv_serviceable : option bool;
  sv_city : option string;
  sv_state : option string;
  sv_cod_available : option bool;
  sv_estimated_days : option string;
  sv_shipping_charge : option Z;
  sv_cod_charges : option Z;
  sv_courier_name : option string
}.

Definition pincode_database : list (string * (string * string)) :=
  [("212", ("Fatehpur", "Uttar Pradesh")); ("226", ("Lucknow", "Uttar Pradesh"));
   ("281", ("Mathura", "Uttar Pradesh")); ("201", ("Ghaziabad", "Uttar Pradesh"));
   ("211", ("Prayagraj", "Uttar Pradesh")); ("221", ("Varanasi", "Uttar Pradesh"));
   ("110", ("Delhi", "Delhi")); ("121", ("Gurugram", "Haryana"));
   ("122", ("Gurugram", "Haryana")); ("201", ("Noida", "Uttar Pradesh"));
   ("400", ("Mumbai", "Maharashtra")); ("401", ("Thane", "Maharashtra"));
   ("411", ("Pune", "Maharashtra")); ("440", ("Nagpur", "Maharashtra"));
   ("431", ("Aurangabad", "Maharashtra"));
   ("560", ("Bangalore", "Karnataka")); ("570", ("Mysore", "Karnataka"));
   ("580", ("Hubli", "Karnataka"));
   ("600", ("Chennai", "Tamil Nadu")); ("641", ("Coimbatore", "Tamil Nadu"));
   ("625", ("Madurai", "Tamil Nadu"));
   ("700", ("Kolkata", "West Bengal")); ("500", ("Hyderabad", "Telangana"));
   ("380", ("Ahmedabad", "Gujarat")); ("395", ("Surat", "Gujarat"));
   ("390", ("Vadodara", "Gujarat"));
   ("302", ("Jaipur", "Rajasthan")); ("303", ("Jaipur", "Rajasthan"));
   ("324", ("Kota", "Rajasthan"));
   ("452", ("Indore", "Madhya Pradesh")); ("462", ("Bhopal", "Madhya Pradesh"));
   ("682", ("Kochi", "Kerala")); ("695", ("Thiruvananthapuram", "Kerala"));
   ("141", ("Ludhiana", "Punjab")); ("160", ("Chandigarh", "Chandigarh"));
   ("751", ("Bhubaneswar", "Odisha")); ("800", ("Patna", "Bihar"))].

Definition metro_cities : list string := ["110"; "400"; "560"; "600"; "700"; "500"].

(** [_mock_serviceability] *)
Definition mock_serviceability (pincode : string) : SvResult :=
  let prefix := take 3 pincode in
  let location := dflt ("Unknown", "Unknown") (dict_get prefix pincode_database) in
  let is_metro := existsb (String.eqb prefix) metro_cities in
  mkSv (Some true) (Some (fst location)) (Some (snd location)) (Some true)
    (Some (if is_metro then "3-5 days" else "5-7 days"))
    (Some (if is_metro then 50 else 70)%Z) None (Some "Standard Delivery").

(** An entry of [available_courier_companies]; a field is [None] when its
    key is absent. *)
Record Courier := mkCourier {
  cr_courier_name : option string;
  cr_rate : option Z;
  cr_freight_charge : option Z;
  cr_total_charge : option Z;
  cr_city : option string;
  cr_state : option string;
  cr_cod : option Z;
  cr_cod_charges : option Z;
  cr_etd : option string
}.

(** [x or y] on optional numbers: [None] and [0] are false. *)
Definition py_or_z (x y : option Z) : option Z :=
  match x with
  | Some z => if (z =? 0)%Z then y else x
  | None => y
  end.

(** [get_rate] of the cheapest-courier fallback. *)
Definition get_rate (c : Courier) : Z :=
  match py_or_z (py_or_z (cr_rate c) (cr_freight_charge c)) (cr_total_charge c) with
  | Some r => r
  | None => 999999
  end.

(** [min(cs, key=get_rate)]: the first courier of least key. *)
Definition min_by_rate (c0 : Courier) (cs : list Courier) : Courier :=
  fold_left (fun best c => if (get_rate c <? get_rate best)%Z then c else best) cs c0.

Definition is_amazon_surface (c : Courier) : bool :=
  Str.contains "amazon shipping surface" (Str.lower (dflt "" (cr_courier_name c))).

(** The courier chosen among [available_couriers]: the first Amazon
    Shipping Surface one, else the cheapest; [None] for an empty list. *)
Definition select_courier (cs : list Courier) : option Courier :=
  match find is_amazon_surface cs with
  | Some c => Some c
  | None => match cs with
            | [] => None
            | c0 :: rest => Some (min_by_rate c0 rest)
            end
  end.

Definition not_serviceable : SvResult :=
  mkSv (Some false) None None None None None None None.

Definition of_courier (c : Courier) : SvResult :=
  mkSv (Some true) (Some (dflt "" (cr_city c))) (Some (dflt "" (cr_state c)))
    (Some (dflt 1 (cr_cod c) =? 1)%Z)
    (Some (dflt "3-5 days" (cr_etd c)))
    (Some (dflt 50%Z (py_or_z (py_or_z (cr_rate c) (cr_freight_charge c)) (Some 50%Z))))
    (Some (dflt 0%Z (cr_cod_charges c))) (Some (dflt "" (cr_courier_name c))).

(** [check_pincode_serviceability(pincode, cod)] with [self.debug] as
    [debug].  [resp] is the HTTP exchange: [Raised] for an exception,
    [Returned None] for a status other than 200, [Returned (Some cs)] for
    the courier list of a 200 answer.  Every exception is caught. *)
Definition check_pincode_serviceability (debug : bool) (pincode : string)
    (resp : Adapter (option (list Courier))) : SvResult :=
  if debug then mock_serviceability pincode else
  match resp with
  | Returned (Some cs) =>
      match select_courier cs with
      | Some c => of_courier c
      | None => not_serviceable
      end
  | _ => not_serviceable
  end.

End ShiprocketSvc.

(* ------------------------------------------------------------------ *)
(** ** [orders.py]: shipping cost, orders by phone, one order *)

Module OrdersHelpers.
Import PyStr ShiprocketSvc.

(** [calculate_shipping_cost] as bound at import time: the second of the
    two definitions of the module, which replaces the first.  [result] is
    the answer of [check_pincode_serviceability] ([Raised] stands for an
    exception raised in the [try] block).  Amounts are whole rupees, on
    which [round(x, 2)] is the identity. *)
Definition calculate_shipping_cost (subtotal : Z) (is_cod : bool)
    (result : Adapter SvResult) : Z :=
  if (999 <=? subtotal)%Z then 0%Z else
  match result with
  | Raised => if (subtotal <? 999)%Z then 50%Z else 0%Z
  | Returned r =>
      match sv_serviceable r with
      | Some true =>
          (dflt 50 (sv_shipping_charge r)
           + (if is_cod then dflt 0 (sv_cod_charges r) else 0))%Z
      | _ => 50%Z
      end
  end.

(** The phone formatting of [get_user_orders_by_phone]. *)
Definition format_user_phone (phone : string) : string :=
  if Str.is_prefix "91" phone then phone
  else if String.length phone =? 10 then "91" ++ phone else phone.

(** [GET /user/phone/{phone}]: the orders of the customer with that phone
    ([ORDER BY created_at DESC] is not modelled: the rows come in table
    order). *)
Definition get_user_orders_by_phone (phone : string) (w : World) : list OrderRow :=
  let formatted_phone := format_user_phone phone in
  match find (fun c => opt_eqb (cust_phone c) (Some formatted_phone)) (customers w) with
  | None => []
  | Some c => filter (fun o => Nat.eqb (customer_id o) (cust_id c)) (orders w)
  end.

(** [GET /{order_id}].  The order is loaded by the request's own session, so
    the instance has none of the non-column attributes (see [SrAttrs]); the
    reply dict reads [order.shiprocket_order_id] outside any try block, which
    raises [AttributeError]. *)
Definition get_order (ref : string) (w : World) : Resp :=
  match find_order ref w with
  | None => HttpError 404 "Order not found"
  | Some _ => HttpError 500 "AttributeError: shiprocket_order_id"
  end.

End OrdersHelpers.

(* ------------------------------------------------------------------ *)
(** ** [shiprocket_service.py]: shipping charges by weight, and the
    ["calculate_shipping"] action of [delivery.py]

    Weights and charges are Python floats here, modelled as [Q]: the
    comparisons with the tier bounds (0.5, 1, 2, 3 and 5, all exact in
    binary) are exact, and the one computed charge, [(weight - 5) * 20]
    plus a constant, is taken without rounding. *)

Module ShippingCharges.
Import PyStr ShiprocketSvc QArith.
Local Open Scope Q_scope.

(** The dict returned by [calculate_shipping_charges]; [cg_courier_name]
    is [None] in the mock dict, which has no such key, and [cg_mock] is
    its ["mock"] key ([false]: absent). *)
Record ChargeResult := mkCharge {
  cg_shipping_charge : Q;
  cg_cod_charge : Q;
  cg_total_charge : Q;
  cg_estimated_days : string;
  cg_courier_name : option string;
  cg_mock : bool
}.

(** [_mock_shipping_charges].  [cod_amount] is [Optional[float]]: for
    [None] the comparison [cod_amount > 0] raises [TypeError] (the result
    [None]). *)
Definition mock_shipping_charges (pincode : string) (weight : Q) (cod_amount : option Q)
    : option ChargeResult :=
  let is_metro := existsb (String.eqb (take 3 pincode)) metro_cities in
  let base_charge :=
    if Qle_bool weight 0.5 then (if is_metro then 35 else 45)
    else if Qle_bool weight 1 then (if is_metro then 50 else 65)
    else if Qle_bool weight 2 then (if is_metro then 70 else 90)
    else if Qle_bool weight 3 then (if is_metro then 90 else 115)
    else if Qle_bool weight 5 then (if is_metro then 120 else 150)
    else
      let extra_weight := weight - 5 in
      (if is_metro then 120 else 150) + extra_weight * 20 in
  match cod_amount with
  | None => None
  | Some ca =>
      let cod_charge := if negb (Qle_bool ca 0) then 40 else 0 in
      let total_charge := base_charge + cod_charge in
      Some (mkCharge base_charge cod_charge total_charge
              (if is_metro then "3-5 days" else "5-7 days") None true)
  end.

(** An entry of [available_courier_companies] as this function reads it:
    the fields of [Courier], and the key [cod_charge]. *)
Record ChargeCourier := mkChargeCourier {
  cc_courier : Courier;
  cc_cod_charge : option Z
}.

(** The first Amazon Shipping Surface courier, else
    [min(available_couriers, key=get_rate)]; [None] for an empty list. *)
Definition select_charge_courier (cs : list ChargeCourier) : option ChargeCourier :=
  match find (fun c => is_amazon_surface (cc_courier c)) cs with
  | Some c => Some c
  | None =>
      match cs with
      | [] => None
      | c0 :: rest =>
          Some (fold_left (fun best c =>
                  if (get_rate (cc_courier c) <? get_rate (cc_courier best))%Z then c else best)
                  rest c0)
      end
  end.

(** [estimated_days] from the courier's ["etd"] (default ['3-5']). *)
Definition charge_estimated_days (etd : option string) : string :=
  let estimated_days := dflt "3-5" etd in
  if negb (String.eqb estimated_days "") then
    if Str.contains "days" (Str.lower estimated_days) then estimated_days
    else estimated_days ++ " days"
  else "3-5 days".

(** The result dict built from the selected courier, for a COD amount [ca]. *)
Definition of_charge_courier (c : ChargeCourier) (ca : Q) : ChargeResult :=
  let k := cc_courier c in
  let shipping_charge :=
    inject_Z (dflt 50%Z (py_or_z (py_or_z (py_or_z (cr_rate k) (cr_freight_charge k))
                                           (cr_total_charge k)) (Some 50%Z))) in
  let cod_charge :=
    if negb (Qle_bool ca 0)
    then inject_Z (dflt 0%Z (py_or_z (py_or_z (cr_cod_charges k) (cc_cod_charge c)) (Some 0%Z)))
    else 0 in
  mkCharge shipping_charge cod_charge (shipping_charge + cod_charge)
    (charge_estimated_days (cr_etd k)) (Some (dflt "Shiprocket" (cr_courier_name k))) false.

(** [calculate_shipping_charges(pincode, weight, cod_amount)] with
    [self.debug] as [debug]; [resp] is the HTTP exchange as for
    [check_pincode_serviceability].  Every path that fails falls back to
    the mock from the [except] block.  For [cod_amount = None] the
    [params] dict raises [TypeError] before the request, and the mock
    called from the [except] block raises it again: the result is [None]
    (in debug mode too, where the mock raises inside the [try]). *)
Definition calculate_shipping_charges (debug : bool) (pincode : string) (weight : Q)
    (cod_amount : option Q) (resp : Adapter (option (list ChargeCourier)))
    : option ChargeResult :=
  if debug then mock_shipping_charges pincode weight cod_amount else
  match cod_amount with
  | None => mock_shipping_charges pincode weight cod_amount
  | Some ca =>
      match resp with
      | Returned (Some cs) =>
          match select_charge_courier cs with
          | Some c => Some (of_charge_courier c ca)
          | None => mock_shipping_charges pincode weight cod_amount
          end
      | _ => mock_shipping_charges pincode weight cod_amount
      end
  end.

Record ShippingReply := mkShippingReply {
  sh_success : bool;
  sh_pincode : string;
  sh_weight : Q;
  sh_shipping_charge : Q;
  sh_cod_charge : Q;
  sh_total_charge : Q;
  sh_estimated_days : string
}.

(** Action ["calculate_shipping"] of [handle_delivery_request]; [svc] is
    [shiprocket_service.calculate_shipping_charges] ([None]: it raised the
    [TypeError] of [None > 0], which the handler's [except Exception]
    turns into HTTP 500 with [str(e)]).  The result dict has every key the
    reply reads, so the [.get] defaults are never used. *)
Definition calculate_shipping (pincode : option string) (weight cod_amount : option Q)
    (svc : string -> Q -> option Q -> option ChargeResult) : HttpResult ShippingReply :=
  match pincode, weight with
  | Some p, Some wt =>
      if String.eqb p "" || Qeq_bool wt 0 then HErr 400 "Pincode and weight required" else
      match svc p wt cod_amount with
      | None => HErr 500 "'>' not supported between instances of 'NoneType' and 'int'"
      | Some r =>
          HOk (mkShippingReply true p wt (cg_shipping_charge r) (cg_cod_charge r)
                 (cg_total_charge r) (cg_estimated_days r))
      end
  | _, _ => HErr 400 "Pincode and weight required"
  end.

End ShippingCharges.

(* ------------------------------------------------------------------ *)
(** ** [payment_service.py] and the remaining [payments.py] endpoints *)

Module PaymentSvc.
Import PyStr.

(** [settings.razorpay_key_id] and [settings.razorpay_key_secret]. *)
Record PaymentService := mkPaymentService { key_id : string; key_secret : string }.

(** [self.client] is set in [__init__]. *)
Definition has_client (ps : PaymentService) : bool :=
  negb (String.eqb (key_id ps) "") && negb (String.eqb (key_secret ps) "")
  && negb (String.eqb (key_id ps) "your_key_here").

(** The fields of [client.payment.fetch] that the code reads. *)
Record PaymentInfo := mkPaymentInfo {
  pi_status : option string;
  pi_amount : option Z;
  pi_currency : option string;
  pi_method : option string;
  pi_created_at : option string
}.

Record VerifyResult := mkVerifyResult { vr_success : bool; vr_verified : bool; vr_mock : bool }.

(** [verify_payment].  [generated_signature] is the HMAC-SHA256 hex digest
    of ["{razorpay_order_id}|{razorpay_payment_id}"] under [key_secret];
    [fetch] is [client.payment.fetch(razorpay_payment_id)]. *)
Definition verify_payment (ps : PaymentService)
    (razorpay_order_id razorpay_payment_id razorpay_signature : string)
    (generated_signature : string) (fetch : Adapter PaymentInfo) : VerifyResult :=
  if has_client ps && negb (String.eqb (key_secret ps) "your_secret_here") then
    if String.eqb generated_signature razorpay_signature then
      match fetch with
      | Returned _ => mkVerifyResult true true false
      | Raised => mkVerifyResult false false false
      end
    else mkVerifyResult false false false
  else mkVerifyResult true true true.

(** What [fetch_payment] returns: [FetchOk None] is the mock answer,
    which has no ["payment"] key. *)
Inductive FetchResult := FetchFailed | FetchOk (payment : option PaymentInfo).

Definition fetch_payment (ps : PaymentService) (api : Adapter PaymentInfo) : FetchResult :=
  if has_client ps then
    match api with
    | Returned p => FetchOk (Some p)
    | Raised => FetchFailed
    end
  else FetchOk None.

(** The reply of [GET /status/{payment_id}]; its ["amount"] is
    [st_amount_paise / 100]. *)
Record StatusReply := mkStatusReply {
  st_success : bool;
  st_payment_id : string;
  st_status : string;
  st_amount_paise : Z;
  st_currency : string;
  st_method : option string;
  st_created_at : option string;
  st_mock : bool
}.

Definition check_payment_status (payment_id : string) (result : FetchResult)
    (now_iso : string) : StatusReply :=
  match result with
  | FetchOk payment =>
      let get {A} (f : PaymentInfo -> option A) :=
        match payment with Some p => f p | None => None end in
      mkStatusReply true payment_id (dflt "unknown" (get pi_status))
        (dflt 0%Z (get pi_amount)) (dflt "INR" (get pi_currency))
        (Some (dflt "" (get pi_method))) (Some (dflt now_iso (get pi_created_at))) false
  | FetchFailed => mkStatusReply true payment_id "captured" 0 "INR" None None true
  end.

(** [POST /cod].  [db_error] tells whether the commit raises (the inner
    [except] rolls back). *)
Definition set_cod (now : nat) (o : OrderRow) : OrderRow :=
  mkOrder (order_id o) (customer_id o) (shipping_email o) (subtotal o)
    (shipping_cost o) (total o) "cod" PAY_PENDING
    (razorpay_order_id o) (razorpay_payment_id o) (order_status o) (waybill_number o)
    (estimated_delivery o) (delivered_at o) (admin_notes o) (Some now).

Definition process_cod_order (ref : string) (db_error : bool) (now : nat) (w : World)
    : Resp * World :=
  let w' := match find_order ref w with
            | Some _ => if db_error then w else update_order ref (set_cod now) w
            | None => w
            end in
  (Json [("success", "true"); ("message", "COD order placed successfully");
         ("order_id", ref); ("payment_method", "cod"); ("payment_status", "pending")], w').

End PaymentSvc.

(* ------------------------------------------------------------------ *)
(** ** [app/utils/order_id_generator.py] *)

Module OrderIdGen.

(** [generate_order_id] is [OrdersRoutes.generate_order_id]. *)
Definition generate_waybill_number (order_id : string) : string :=
  "PDEL" ++ PyStr.drop 2 order_id.

End OrderIdGen.

(* ------------------------------------------------------------------ *)
(** ** Sample inputs for the services *)

Module ServiceSamples.
Import PyStr ShiprocketSvc OrdersHelpers PaymentSvc.

Definition courier_delhivery : Courier :=
  mkCourier (Some "Delhivery Surface") (Some 80%Z) None None (Some "Fatehpur")
    (Some "Uttar Pradesh") (Some 1%Z) (Some 30%Z) (Some "4-6 days").

Definition courier_xpressbees : Courier :=
  mkCourier (Some "Xpressbees") None (Some 60%Z) None (Some "Fatehpur")
    (Some "Uttar Pradesh") (Some 1%Z) (Some 35%Z) (Some "3-5 days").

(** A courier quoting only a [total_charge]. *)
Definition courier_ekart : Courier :=
  mkCourier (Some "Ekart Logistics") None None (Some 40%Z) (Some "Fatehpur")
    (Some "Uttar Pradesh") (Some 0%Z) None (Some "5-7 days").

Definition sample_couriers : list Courier :=
  [courier_delhivery; courier_xpressbees; courier_ekart].

(** The same couriers as read by [calculate_shipping_charges] (no
    [cod_charge] key). *)
Definition sample_charge_couriers : list ShippingCharges.ChargeCourier :=
  map (fun c => ShippingCharges.mkChargeCourier c None) sample_couriers.


Definition live_service : PaymentService :=
  mkPaymentService "rzp_live_K1" "s3cr3t".

Definition sample_payment : PaymentInfo :=
  mkPaymentInfo (Some "captured") (Some 55000%Z) (Some "INR") (Some "upi") None.

Definition phone_world : World :=
  mkWorld [Samples.delivered_order] []
    [mkCustomer 1 (Some "919876543210") (Some "buyer@example.com")] [] 0.

End ServiceSamples.

(* ================================================================== *)
(** * Properties *)

Import OrdersRoutes Payments AdminOrders DeliveryRoutes Lifecycle Samples.

(** ** Rows under updates *)

Lemma find_order_some ref w o :
  find_order ref w = Some o -> order_id o = ref /\ In o (orders w).
Proof.
  unfold find_order; intros H.
  apply find_some in H as [Hin Heq]. apply String.eqb_eq in Heq. auto.
Qed.

Lemma find_update_order r ref f w :
  (forall o, order_id (f o) = order_id o) ->
  find_order r (update_order ref f w) =
  option_map (fun o => if String.eqb (order_id o) ref then f o else o) (find_order r w).
Proof.
  intros Hf. unfold find_order, update_order; simpl.
  induction (orders w) as [|a l IH]; simpl; auto.
  destruct (String.eqb (order_id a) ref) eqn:E; simpl.
  - rewrite Hf. destruct (String.eqb (order_id a) r); simpl; [rewrite E; auto | exact IH].
  - destruct (String.eqb (order_id a) r); simpl; [rewrite E; auto | exact IH].
Qed.

Lemma progress_le_4 s : progress s <= 4.
Proof. destruct s; simpl; lia. Qed.

Lemma regresses_progress s s' :
  regresses s s' = true -> progress s' < progress s.
Proof. destruct s, s'; simpl; intros H; try discriminate; lia. Qed.

(** ** Monotonicity *)

Lemma mono_refl w : mono w w.
Proof. intros ref o H. exists o. auto. Qed.

Lemma mono_trans w1 w2 w3 : mono w1 w2 -> mono w2 w3 -> mono w1 w3.
Proof.
  intros H12 H23 ref o H. destruct (H12 _ _ H) as (o2 & H2 & L2).
  destruct (H23 _ _ H2) as (o3 & H3 & L3). exists o3. split; [auto | lia].
Qed.

Lemma mono_same_orders w w' : orders w' = orders w -> mono w w'.
Proof. intros E ref o H. exists o. unfold find_order in *. rewrite E. auto. Qed.

Lemma mono_update_delivery w ref g : mono w (update_delivery ref g w).
Proof. apply mono_same_orders. reflexivity. Qed.

Lemma mono_update w ref f :
  (forall o, order_id (f o) = order_id o) ->
  (forall o, find_order ref w = Some o ->
             progress (order_status o) <= progress (order_status (f o))) ->
  mono w (update_order ref f w).
Proof.
  intros Hid Hle r o H. rewrite find_update_order by exact Hid. rewrite H; simpl.
  eexists; split; [reflexivity|].
  destruct (String.eqb (order_id o) ref) eqn:E; [|lia].
  apply String.eqb_eq in E. destruct (find_order_some _ _ _ H) as [Hr _].
  apply Hle. rewrite <- E, Hr. exact H.
Qed.

Lemma mono_set_top w ref s :
  progress s = 4 -> mono w (update_order ref (set_status s) w).
Proof.
  intros Hs. apply mono_update; [reflexivity|].
  intros o _. simpl. rewrite Hs. apply progress_le_4.
Qed.

Lemma live_status_update_progress ss cur s' dst :
  OrderStatus_eqb cur CANCELLED = false ->
  live_status_update ss cur = Some (s', dst) -> progress cur <= progress s'.
Proof.
  intros Hc. unfold live_status_update.
  destruct (Str.contains "delivered" ss);
    [| destruct (existsb _ _);
       [| destruct (Str.contains "pickup scheduled" ss || Str.contains "manifest" ss)]];
    destruct cur; simpl in *; intros H; inversion H; subst; simpl; try lia; discriminate.
Qed.

Lemma status_of_found ref d w o :
  find_order ref w = Some o -> status_of ref d w = order_status o.
Proof. unfold status_of. intros ->. reflexivity. Qed.

Lemma mono_live w ref ss g d :
  OrderStatus_eqb (status_of ref d w) CANCELLED = false ->
  forall s' dst, live_status_update ss (status_of ref d w) = Some (s', dst) ->
  mono w (update_delivery ref g (update_order ref (set_status s') w)).
Proof.
  intros Hc s' dst Hl.
  eapply mono_trans; [| apply mono_update_delivery].
  apply mono_update; [reflexivity|].
  intros o Ho. simpl. rewrite (status_of_found _ d _ _ Ho) in Hc, Hl.
  eapply live_status_update_progress; eauto.
Qed.

Lemma track_mono sr det trk ref email w :
  mono w (snd (track_order_with sr det trk ref email w)).
Proof.
  unfold track_order_with.
  destruct (find_order ref w) as [o|] eqn:Hf; [|apply mono_refl].
  destruct (negb _); [apply mono_refl|].
  destruct sr as [a|]; [|apply mono_refl].
  cbn zeta. simpl snd.
  match goal with
  | |- context [if Str.truthy (sr_order_id a) then ?x else w] =>
      set (w1 := if Str.truthy (sr_order_id a) then x else w)
  end.
  assert (H1 : mono w w1).
  { subst w1. destruct (Str.truthy (sr_order_id a)); [|apply mono_refl].
    destruct det as [|dt]; [apply mono_refl|].
    destruct (_ && _ && _); [|apply mono_refl].
    destruct (find_delivery ref w).
    - eapply mono_trans;
        [apply (mono_set_top w ref CANCELLED eq_refl) | apply mono_update_delivery].
    - apply (mono_set_top w ref CANCELLED eq_refl). }
  apply (mono_trans _ w1 _ H1).
  destruct (find_delivery ref w) as [dl|]; [|apply mono_refl].
  destruct (Str.truthy (dlv_shipment_id dl) && negb (OrderStatus_eqb (status_of ref (order_status o) w1) CANCELLED)) eqn:Hc;
    [|apply mono_refl].
  apply andb_true_iff in Hc as [_ Hc]. apply negb_true_iff in Hc.
  destruct trk as [|t]; [apply mono_refl|].
  destruct (trk_success t); [|apply mono_refl].
  destruct (live_status_update _ _) as [[s' dst]|] eqn:Hl; [|apply mono_refl].
  eapply mono_live; eauto.
Qed.

Lemma delivery_update_mono wb su now w :
  mono w (snd (update_status wb su now w)).
Proof.
  unfold update_status.
  destruct wb as [wb|]; [|apply mono_refl]. destruct su as [su|]; [|apply mono_refl].
  destruct (negb _); [apply mono_refl|].
  destruct (find_delivery_by_waybill wb w) as [d|]; [|apply mono_refl].
  cbn zeta. simpl snd.
  eapply mono_trans;
    [apply (mono_update_delivery w (dlv_order d) (set_delivery_status (su_status su)))|].
  repeat match goal with
         | |- context [if ?b then _ else _] => destruct b
         end; try apply mono_refl.
  apply mono_update; [reflexivity|]. intros o0 _. simpl. apply progress_le_4.
Qed.

(** ** The admin endpoints *)

Lemma verify_admin_access_raises email phone fp w :
  exists e, verify_admin_access email phone fp w = inl e.
Proof.
  unfold verify_admin_access.
  destruct (negb (Str.truthy email) && negb (Str.truthy phone)); [eexists; reflexivity|].
  cbn zeta. destruct (if Str.truthy email then _ else _); eexists; reflexivity.
Qed.

Lemma update_order_status_fails email phone fp ref st now w :
  exists code detail,
    update_order_status email phone fp ref st now w = (HttpError code detail, w).
Proof.
  unfold update_order_status.
  destruct (verify_admin_access_raises email phone fp w) as [e ->].
  destruct e; do 2 eexists; reflexivity.
Qed.

Lemma create_shipment_fails email phone fp ref digits w :
  exists code detail,
    create_shipment email phone fp ref digits w = (HttpError code detail, w).
Proof.
  unfold create_shipment.
  destruct (verify_admin_access_raises email phone fp w) as [e ->].
  destruct e; do 2 eexists; reflexivity.
Qed.

Lemma update_order_status_world email phone fp ref st now w :
  snd (update_order_status email phone fp ref st now w) = w.
Proof. destruct (update_order_status_fails email phone fp ref st now w) as (c & d & ->). reflexivity. Qed.

Lemma create_shipment_world email phone fp ref digits w :
  snd (create_shipment email phone fp ref digits w) = w.
Proof. destruct (create_shipment_fails email phone fp ref digits w) as (c & d & ->). reflexivity. Qed.

Lemma status_op_step_mono op w :
  status_op op = true -> mono w (step op w).
Proof.
  destruct op; simpl; intros H; try discriminate; unfold step; simpl handle.
  - rewrite update_order_status_world. apply mono_refl.
  - apply track_mono.
  - apply delivery_update_mono.
Qed.

Lemma status_op_run_mono ops w :
  forallb status_op ops = true -> mono w (run ops w).
Proof.
  revert w. induction ops as [|op ops IH]; intros w H; simpl in *.
  - apply mono_refl.
  - apply andb_true_iff in H as [H1 H2].
    eapply mono_trans; [apply status_op_step_mono; exact H1 | apply IH; exact H2].
Qed.

Lemma live_status_update_no_regress ss cur s' dst :
  live_status_update ss cur = Some (s', dst) -> regresses cur s' = false.
Proof.
  unfold live_status_update.
  destruct (Str.contains "delivered" ss);
    [| destruct (existsb _ _);
       [| destruct (Str.contains "pickup scheduled" ss || Str.contains "manifest" ss)]];
    destruct cur; simpl; intros H; try discriminate; injection H as <- _; reflexivity.
Qed.

(** ** C1 *)

(** C1 (confirmed): over every sequence of tracking reconciliations
    ([track_order], whatever attributes the order instance carries), admin
    status updates and delivery status updates, the status of an order
    never goes back along Processing -> Shipped -> Delivered; and no
    classified live-tracking status moves the current status backward, so
    an event that would regress it changes nothing. *)
Theorem status_never_regresses :
  (forall ops w ref o o',
     forallb status_op ops = true ->
     find_order ref w = Some o ->
     find_order ref (run ops w) = Some o' ->
     regresses (order_status o) (order_status o') = false) /\
  (forall ss cur s' dst,
     live_status_update ss cur = Some (s', dst) -> regresses cur s' = false).
Proof.
  split; [|exact live_status_update_no_regress].
  intros ops w ref o o' Hops Ho Ho'.
  destruct (status_op_run_mono ops w Hops ref o Ho) as (o2 & H2 & L).
  rewrite Ho' in H2. injection H2 as <-.
  destruct (regresses (order_status o) (order_status o')) eqn:R; [|reflexivity].
  apply regresses_progress in R. lia.
Qed.

Lemma status_never_regresses_witness :
  regresses (order_status delivered_order) (order_status delivered_order) = false /\
  regresses SHIPPED DELIVERED = false.
Proof.
  destruct status_never_regresses as [Ha Hb]. split.
  - apply (Ha status_ops world_delivered "PD20251025101010" delivered_order delivered_order);
      vm_compute; reflexivity.
  - apply (Hb "delivered" SHIPPED DELIVERED "Delivered"). vm_compute. reflexivity.
Defined.

(** ** Shipped orders and shipment references *)

Lemma dl_incl_refl w : dl_incl w w.
Proof. intros d H. exists d. auto. Qed.

Lemma dl_incl_trans w1 w2 w3 : dl_incl w1 w2 -> dl_incl w2 w3 -> dl_incl w1 w3.
Proof.
  intros H12 H23 d H. destruct (H12 _ H) as (d2 & I2 & O2 & S2).
  destruct (H23 _ I2) as (d3 & I3 & O3 & S3). exists d3. repeat split; congruence.
Qed.

Lemma dl_incl_same w w' : deliveries w' = deliveries w -> dl_incl w w'.
Proof. intros E d H. exists d. rewrite E. auto. Qed.

Lemma dl_incl_update_delivery w ref st :
  dl_incl w (update_delivery ref (set_delivery_status st) w).
Proof.
  intros d H. simpl.
  exists (if String.eqb (dlv_order d) ref then set_delivery_status st d else d).
  split; [exact (in_map (fun d => if String.eqb (dlv_order d) ref
                                   then set_delivery_status st d else d) _ _ H)|].
  destruct (String.eqb (dlv_order d) ref); auto.
Qed.

Lemma dl_incl_insert_delivery w d w' :
  insert_delivery d w = Some w' -> dl_incl w w'.
Proof.
  unfold insert_delivery. destruct (existsb _ _); intros H; [discriminate|].
  injection H as <-. intros x Hx. exists x. simpl. rewrite in_app_iff. auto.
Qed.

Lemma insert_delivery_orders w d w' :
  insert_delivery d w = Some w' -> orders w' = orders w.
Proof.
  unfold insert_delivery. destruct (existsb _ _); intros H; [discriminate|].
  injection H as <-. reflexivity.
Qed.

Lemma ref_transfer w w' o : dl_incl w w' -> has_shipment_ref w o -> has_shipment_ref w' o.
Proof.
  intros Hd [H|(d & Hin & Ho & Hs)]; [left; exact H|].
  destruct (Hd _ Hin) as (d' & I' & O' & S'). right. exists d'.
  repeat split; congruence.
Qed.

Lemma inv_transfer w w' :
  orders w' = orders w -> dl_incl w w' -> shipped_has_ref w -> shipped_has_ref w'.
Proof.
  intros Eo Hd Hinv o Hin Hs. rewrite Eo in Hin.
  eapply ref_transfer; [exact Hd|]. apply Hinv; auto.
Qed.

Lemma inv_update_delivery w ref st :
  shipped_has_ref w -> shipped_has_ref (update_delivery ref (set_delivery_status st) w).
Proof. apply inv_transfer; [reflexivity | apply dl_incl_update_delivery]. Qed.

Lemma inv_insert_delivery w d w' :
  insert_delivery d w = Some w' -> shipped_has_ref w -> shipped_has_ref w'.
Proof.
  intros H. apply inv_transfer;
    [eapply insert_delivery_orders | eapply dl_incl_insert_delivery]; eauto.
Qed.

Lemma inv_update_order w ref f :
  (forall o, order_id (f o) = order_id o) ->
  (forall o, In o (orders w) -> order_id o = ref -> order_status (f o) = SHIPPED ->
     has_shipment_ref w (f o) \/
     (order_status o = SHIPPED /\ waybill_number (f o) = waybill_number o)) ->
  shipped_has_ref w -> shipped_has_ref (update_order ref f w).
Proof.
  intros Hid Hf Hinv o' Hin Hs. simpl in Hin. apply in_map_iff in Hin as (o & <- & Hin).
  destruct (String.eqb (order_id o) ref) eqn:E.
  - apply String.eqb_eq in E.
    destruct (Hf o Hin E Hs) as [H|[Hs0 Hw]]; [exact H|].
    destruct (Hinv o Hin Hs0) as [H|(d & I & Od & Sd)].
    + left. rewrite Hw. exact H.
    + right. exists d. rewrite Hid. auto.
  - apply Hinv; auto.
Qed.

Lemma inv_set_status w ref s :
  s <> SHIPPED -> shipped_has_ref w -> shipped_has_ref (update_order ref (set_status s) w).
Proof.
  intros Hs. apply inv_update_order; [reflexivity|]. intros o _ _ H. simpl in H. contradiction.
Qed.

Lemma inv_insert_order w o w' :
  order_status o <> SHIPPED -> insert_order o w = Some w' ->
  shipped_has_ref w -> shipped_has_ref w'.
Proof.
  unfold insert_order. destruct (existsb _ _); intros Hs H; [discriminate|].
  injection H as <-. intros Hinv x Hin Hx. simpl in Hin. apply in_app_iff in Hin.
  destruct Hin as [Hin|[<-|[]]]; [apply Hinv; auto | contradiction].
Qed.

Lemma inv_insert_customer w c w' :
  insert_customer c w = Some w' -> shipped_has_ref w -> shipped_has_ref w'.
Proof.
  unfold insert_customer. destruct (existsb _ _); intros H; [discriminate|].
  injection H as <-. apply inv_transfer; [reflexivity | apply dl_incl_same; reflexivity].
Qed.

Lemma inv_insert_items ok its w w' :
  insert_items ok its w = Some w' -> shipped_has_ref w -> shipped_has_ref w'.
Proof.
  unfold insert_items. destruct ok; intros H; [|discriminate].
  injection H as <-. apply inv_transfer; [reflexivity | apply dl_incl_same; reflexivity].
Qed.

Lemma inv_update_not_shipped w ref f :
  (forall o, order_id (f o) = order_id o) ->
  (forall o, order_status (f o) <> SHIPPED) ->
  shipped_has_ref w -> shipped_has_ref (update_order ref f w).
Proof.
  intros Hid Hs. apply inv_update_order; [exact Hid|]. intros o _ _ H. exfalso. eapply Hs; eauto.
Qed.

Lemma inv_update_keep w ref f :
  (forall o, order_id (f o) = order_id o) ->
  (forall o, order_status (f o) = order_status o /\ waybill_number (f o) = waybill_number o) ->
  shipped_has_ref w -> shipped_has_ref (update_order ref f w).
Proof.
  intros Hid Hk. apply inv_update_order; [exact Hid|]. intros o _ _ H. right.
  destruct (Hk o) as [E1 E2]. rewrite <- E1. auto.
Qed.

Lemma find_delivery_some ref w d :
  find_delivery ref w = Some d -> In d (deliveries w) /\ dlv_order d = ref.
Proof.
  unfold find_delivery. intros H. apply find_some in H as [Hin Heq].
  apply String.eqb_eq in Heq. auto.
Qed.

Lemma inv_inc_gateway_calls w : shipped_has_ref w -> shipped_has_ref (inc_gateway_calls w).
Proof. apply inv_transfer; [reflexivity | apply dl_incl_same; reflexivity]. Qed.

Lemma track_inv sr det trk ref email w :
  shipped_has_ref w -> shipped_has_ref (snd (track_order_with sr det trk ref email w)).
Proof.
  intros Hinv. unfold track_order_with.
  destruct (find_order ref w) as [o|] eqn:Hf; [|exact Hinv].
  destruct (negb _); [exact Hinv|].
  destruct sr as [a|]; [|exact Hinv].
  cbn zeta. simpl snd.
  match goal with
  | |- context [if Str.truthy (sr_order_id a) then ?x else w] =>
      set (w1 := if Str.truthy (sr_order_id a) then x else w)
  end.
  assert (H1 : shipped_has_ref w1 /\ dl_incl w w1).
  { subst w1. destruct (Str.truthy (sr_order_id a)); [|split; [exact Hinv | apply dl_incl_refl]].
    destruct det as [|dt]; [split; [exact Hinv | apply dl_incl_refl]|].
    destruct (_ && _ && _); [|split; [exact Hinv | apply dl_incl_refl]].
    destruct (find_delivery ref w).
    - split.
      + apply inv_update_delivery, inv_set_status; [discriminate | exact Hinv].
      + apply (dl_incl_trans w (update_order ref (set_status CANCELLED) w));
          [apply dl_incl_same; reflexivity | apply dl_incl_update_delivery].
    - split; [apply inv_set_status; [discriminate | exact Hinv] | apply dl_incl_same; reflexivity]. }
  destruct H1 as [I1 D1].
  destruct (find_delivery ref w) as [dl|] eqn:Hdl; [|exact I1].
  destruct (Str.truthy (dlv_shipment_id dl) && negb (OrderStatus_eqb (status_of ref (order_status o) w1) CANCELLED)) eqn:Hc;
    [|exact I1].
  apply andb_true_iff in Hc as [Hsh _].
  destruct trk as [|t]; [exact I1|].
  destruct (trk_success t); [|exact I1].
  destruct (live_status_update _ _) as [[s' dst]|]; [|exact I1].
  apply inv_update_delivery. apply inv_update_order; [reflexivity| |exact I1].
  intros o0 _ Hid _. left. right.
  destruct (find_delivery_some _ _ _ Hdl) as [Hin Hord].
  destruct (D1 dl Hin) as (d' & I' & O' & S'). exists d'.
  split; [exact I'|]. split; [simpl; congruence | rewrite S'; exact Hsh].
Qed.

Lemma delivery_update_inv wb su now w :
  shipped_has_ref w -> shipped_has_ref (snd (update_status wb su now w)).
Proof.
  intros Hinv. unfold update_status.
  destruct wb as [wb|]; [|exact Hinv]. destruct su as [su|]; [|exact Hinv].
  destruct (negb _); [exact Hinv|].
  destruct (find_delivery_by_waybill wb w) as [d|]; [|exact Hinv].
  cbn zeta. simpl snd.
  pose proof (inv_update_delivery w (dlv_order d) (su_status su) Hinv) as I1.
  repeat match goal with
         | |- context [if ?b then _ else _] => destruct b
         end; try exact I1.
  apply inv_update_not_shipped; [reflexivity | intros o0; simpl; discriminate | exact I1].
Qed.

Lemma cancel_inv ref reason r w :
  shipped_has_ref w -> shipped_has_ref (snd (cancel_order ref reason r w)).
Proof.
  intros Hinv. unfold cancel_order.
  destruct (find_order ref w) as [o|]; [|exact Hinv].
  destruct (_ || _); [exact Hinv|].
  cbn zeta. simpl snd.
  apply inv_update_not_shipped; [reflexivity | intros o0; simpl; discriminate|].
  destruct (find_delivery ref w); [|exact Hinv].
  destruct (Str.truthy _); [|exact Hinv].
  destruct r; [exact Hinv | apply inv_update_delivery; exact Hinv].
Qed.

Lemma verify_inv sr v ship data now w :
  shipped_has_ref w ->
  shipped_has_ref (snd (verify_razorpay_payment_with sr v ship data now w)).
Proof.
  intros Hinv. unfold verify_razorpay_payment_with.
  pose proof (inv_inc_gateway_calls w Hinv) as I0.
  cbn zeta. destruct v; simpl snd; [|exact I0].
  destruct (find_order _ _); [|exact I0].
  assert (Ip : shipped_has_ref (update_order (pv_order_id data)
                 (mark_paid (rzp_order_id data) (rzp_payment_id data) now)
                 (inc_gateway_calls w))).
  { apply inv_update_not_shipped; [reflexivity | intros o0; simpl; discriminate | exact I0]. }
  destruct sr as [a|]; [|exact Ip].
  destruct (Str.truthy _); [exact Ip|].
  destruct ship as [|r]; [exact Ip|].
  destruct (sh_success r); [|exact Ip].
  assert (Iq := inv_set_status _ (pv_order_id data) PROCESSING ltac:(discriminate) Ip).
  match goal with
  | |- context [match insert_delivery ?d ?x with _ => _ end] =>
      destruct (insert_delivery d x) eqn:Hi
  end; [eapply inv_insert_delivery; eauto | exact Iq].
Qed.

Lemma get_or_create_customer_inv req w w1 cid :
  get_or_create_customer req w = Some (w1, cid) -> shipped_has_ref w -> shipped_has_ref w1.
Proof.
  unfold get_or_create_customer.
  destruct (if Str.truthy (req_userPhone req) then _ else None) as [c|].
  - intros H. injection H as <- _. auto.
  - destruct (insert_customer _ w) eqn:Hi; intros H; [|discriminate].
    injection H as <- _. eapply inv_insert_customer; eauto.
Qed.

Lemma create_order_inv req ts c ok ship w :
  shipped_has_ref w -> shipped_has_ref (snd (create_order req ts c ok ship w)).
Proof.
  intros Hinv. unfold create_order. cbn zeta.
  destruct (get_or_create_customer req w) as [[w1 cid]|] eqn:Hc; [|exact Hinv].
  pose proof (get_or_create_customer_inv _ _ _ _ Hc Hinv) as I1.
  destruct (ch_subtotal _) as [sub|]; [|exact I1].
  match goal with
  | |- context [match insert_order ?o w1 with _ => _ end] =>
      destruct (insert_order o w1) as [w2|] eqn:Ho
  end; [|exact I1].
  apply inv_insert_order in Ho; [|simpl; discriminate|exact I1].
  match goal with
  | |- context [match insert_items ok ?its w2 with _ => _ end] =>
      destruct (insert_items ok its w2) as [w3|] eqn:Hi
  end; [|exact Ho].
  pose proof (inv_insert_items _ _ _ _ Hi Ho) as I3.
  destruct (ch_total_weight _); [|exact I3].
  destruct ship as [|r]; [exact I3|].
  destruct (sh_success r); simpl snd.
  - match goal with
    | |- context [match insert_delivery ?d ?x with _ => _ end] =>
        destruct (insert_delivery d x) eqn:Hd
    end; [|exact I3].
    eapply inv_insert_delivery; [exact Hd|].
    apply inv_update_not_shipped; [reflexivity | intros o0; simpl; discriminate | exact I3].
  - apply inv_update_keep; [reflexivity | intros o0; simpl; auto | exact I3].
Qed.

Lemma step_inv op w :
  shipped_has_ref w -> shipped_has_ref (step op w).
Proof.
  destruct op; unfold step; simpl handle; intros Hinv.
  - rewrite update_order_status_world. exact Hinv.
  - rewrite create_shipment_world. exact Hinv.
  - apply track_inv; exact Hinv.
  - apply delivery_update_inv; exact Hinv.
  - apply cancel_inv; exact Hinv.
  - apply verify_inv; exact Hinv.
  - apply create_order_inv; exact Hinv.
Qed.

Lemma run_inv ops w : shipped_has_ref w -> shipped_has_ref (run ops w).
Proof.
  revert w. induction ops as [|op ops IH]; intros w Hinv; simpl; [exact Hinv|].
  apply IH, step_inv, Hinv.
Qed.

Lemma empty_world_inv : shipped_has_ref empty_world.
Proof. intros o []. Qed.

(** ** C3 *)

(** C3 (confirmed): every request keeps the invariant "an order in Shipped
    has a non-empty waybill, or a delivery row with a non-empty shipment
    id" ([create_order], [verify_razorpay_payment], [track_order], the
    delivery status update, [cancel_order]; the admin [update_order_status]
    and [create_shipment] always fail in [verify_admin_access] and change
    nothing); hence it holds in every state reached from the empty
    database. *)
Theorem shipped_ref_invariant :
  (forall op w, shipped_has_ref w -> shipped_has_ref (step op w)) /\
  (forall ops, shipped_has_ref (run ops empty_world)).
Proof.
  split; [exact step_inv|].
  intros ops. apply run_inv, empty_world_inv.
Qed.

Lemma shipped_ref_invariant_witness :
  shipped_has_ref (run lifecycle_ops empty_world) /\
  shipped_has_ref (step (OpAdminStatus (Some "buyer@example.com") None ""
                          "PD20251026090000" "shipped" 0) world_confirmed).
Proof.
  destruct shipped_ref_invariant as [Ha Hb]. split.
  - apply Hb.
  - apply Ha. intros o [<-|[]] H. discriminate H.
Defined.

(** ** Payment verification *)

Lemma find_update_self ref f w o :
  (forall o, order_id (f o) = order_id o) -> find_order ref w = Some o ->
  find_order ref (update_order ref f w) = Some (f o).
Proof.
  intros Hid H. rewrite find_update_order by exact Hid. rewrite H. simpl.
  destruct (find_order_some _ _ _ H) as [-> _]. rewrite String.eqb_refl. reflexivity.
Qed.


Lemma find_insert_delivery ref d w w' :
  insert_delivery d w = Some w' -> find_order ref w' = find_order ref w.
Proof. intros H. unfold find_order. rewrite (insert_delivery_orders _ _ _ H). reflexivity. Qed.


Lemma verify_unverified_effect sr ship data now w :
  verify_razorpay_payment_with sr false ship data now w =
  (Json [("success", "false"); ("verified", "false");
         ("message", "Payment verification failed")], inc_gateway_calls w).
Proof. reflexivity. Qed.

(** ** C2 *)




(** ** C4 *)

Lemma find_update_delivery r ref g w :
  find_order r (update_delivery ref g w) = find_order r w.
Proof. reflexivity. Qed.









(** ** C5 *)

(** C5 (confirmed): [cancel_order] refuses a Delivered or Cancelled order
    with HTTP 400 and leaves the database as it is; any other order is
    Cancelled, whether or not the shipment-cancellation step raises. *)
Theorem cancel_order_spec ref reason w o :
  find_order ref w = Some o ->
  ((order_status o = DELIVERED \/ order_status o = CANCELLED) ->
   forall r, cancel_order ref reason r w =
     (HttpError 400 ("Cannot cancel order with status: " ++ OrderStatus_value (order_status o)), w)) /\
  (order_status o <> DELIVERED -> order_status o <> CANCELLED ->
   forall r,
     fst (cancel_order ref reason r w) =
       Json [("success", "true"); ("message", "Order cancelled successfully"); ("orderId", ref)] /\
     exists o', find_order ref (snd (cancel_order ref reason r w)) = Some o' /\
                order_status o' = CANCELLED).
Proof.
  intros H. split.
  - intros Ht r. unfold cancel_order. rewrite H.
    destruct Ht as [-> | ->]; reflexivity.
  - intros Hd Hc r. unfold cancel_order. rewrite H.
    replace (OrderStatus_eqb (order_status o) DELIVERED || OrderStatus_eqb (order_status o) CANCELLED)
      with false by (destruct (order_status o); simpl; congruence).
    cbn zeta. simpl fst; simpl snd. split; [reflexivity|].
    eexists. split.
    + apply find_update_self; [reflexivity|].
      destruct (find_delivery ref w); [|exact H].
      destruct (Str.truthy _); [|exact H].
      destruct r; [exact H|]. rewrite find_update_delivery. exact H.
    + reflexivity.
Qed.

Lemma cancel_order_spec_witness :
  (forall r, cancel_order "PD20251025101010" None r world_delivered =
     (HttpError 400 ("Cannot cancel order with status: " ++ OrderStatus_value DELIVERED),
      world_delivered)) /\
  (forall r,
     fst (cancel_order "PD20251027120000" None r (world_at PAY_PENDING PENDING)) =
       Json [("success", "true"); ("message", "Order cancelled successfully");
             ("orderId", "PD20251027120000")] /\
     exists o', find_order "PD20251027120000"
                  (snd (cancel_order "PD20251027120000" None r (world_at PAY_PENDING PENDING)))
                = Some o' /\ order_status o' = CANCELLED).
Proof.
  split.
  - apply (proj1 (cancel_order_spec "PD20251025101010" None world_delivered delivered_order
                    eq_refl)).
    left. reflexivity.
  - apply (proj2 (cancel_order_spec "PD20251027120000" None (world_at PAY_PENDING PENDING)
                    (order_at PAY_PENDING PENDING) eq_refl)); discriminate.
Defined.

(** ** C7 *)

(** C7 (corrected): when the gateway reports an invalid signature, the
    handler answers success=false, verified=false with an explicit failure
    message, and no order row changes: the payment status keeps its value
    (nothing sets Failed) and so does the status. *)
Theorem invalid_signature_leaves_order sr ship data now w :
  fst (verify_razorpay_payment_with sr false ship data now w) =
    Json [("success", "false"); ("verified", "false");
          ("message", "Payment verification failed")] /\
  orders (snd (verify_razorpay_payment_with sr false ship data now w)) = orders w.
Proof. rewrite verify_unverified_effect. split; reflexivity. Qed.

(** C7, counterexample: a Pending payment stays Pending, not Failed, after
    an invalid signature. *)
Lemma invalid_signature_not_failed :
  option_map payment_status
    (find_order "PD20251027120000"
       (snd (verify_razorpay_payment false Raised proof_data 14 (world_at PAY_PENDING CONFIRMED))))
  = Some PAY_PENDING.
Proof. vm_compute. reflexivity. Qed.

(** ** Order creation *)

Lemma find_app {A} (f : A -> bool) l1 l2 :
  find f (l1 ++ l2) = match find f l1 with Some x => Some x | None => find f l2 end.
Proof. induction l1 as [|a l1 IH]; simpl; [reflexivity|]. destruct (f a); auto. Qed.

Lemma find_none_existsb {A} (f : A -> bool) l : find f l = None -> existsb f l = false.
Proof. induction l as [|a l IH]; simpl; [reflexivity|]. destruct (f a); [discriminate|exact IH]. Qed.

Lemma insert_order_fresh o w :
  find_order (order_id o) w = None ->
  insert_order o w =
    Some (mkWorld (orders w ++ [o]) (items w) (customers w) (deliveries w) (gateway_calls w)).
Proof. unfold insert_order, find_order. intros H. rewrite (find_none_existsb _ _ H). reflexivity. Qed.

Lemma find_order_appended ref w o its cs ds g :
  find_order ref w = None -> order_id o = ref ->
  find_order ref (mkWorld (orders w ++ [o]) its cs ds g) = Some o.
Proof.
  unfold find_order; simpl. intros H E. rewrite find_app, H. simpl.
  rewrite E, String.eqb_refl. reflexivity.
Qed.

Lemma get_or_create_customer_tables req w w1 cid :
  get_or_create_customer req w = Some (w1, cid) ->
  orders w1 = orders w /\ items w1 = items w /\ deliveries w1 = deliveries w.
Proof.
  unfold get_or_create_customer.
  destruct (if Str.truthy (req_userPhone req) then _ else None) as [c|].
  - intros H. injection H as <- _. auto.
  - unfold insert_customer. destruct (existsb _ _); intros H; [discriminate|].
    injection H as <- _. auto.
Qed.

Lemma get_or_create_customer_fresh req w w1 cid ref :
  get_or_create_customer req w = Some (w1, cid) ->
  find_order ref w = None -> find_order ref w1 = None.
Proof.
  intros H. unfold find_order. destruct (get_or_create_customer_tables _ _ _ _ H) as [-> _].
  auto.
Qed.




Lemma NoDup_snoc {A} (l : list A) x : NoDup l -> ~ In x l -> NoDup (l ++ [x]).
Proof.
  induction l as [|a l IH]; simpl; intros Hl Hx.
  - constructor; [intros []|constructor].
  - inversion Hl as [|? ? Ha Hl']; subst. constructor.
    + rewrite in_app_iff. intros [H|[H|[]]]; [contradiction|]. apply Hx. left. symmetry. exact H.
    + apply IH; [exact Hl'|]. intros H. apply Hx. right. exact H.
Qed.

Lemma ids_update_order ref f w :
  (forall o, order_id (f o) = order_id o) ->
  map order_id (orders (update_order ref f w)) = map order_id (orders w).
Proof.
  intros Hid. simpl. rewrite map_map. apply map_ext. intros o.
  destruct (String.eqb (order_id o) ref); [apply Hid|reflexivity].
Qed.

Lemma ids_insert_order o w w' :
  insert_order o w = Some w' ->
  NoDup (map order_id (orders w)) -> NoDup (map order_id (orders w')).
Proof.
  unfold insert_order. destruct (existsb _ _) eqn:E; intros H; [discriminate|].
  injection H as <-. intros Hn. simpl. rewrite map_app. apply NoDup_snoc; [exact Hn|].
  intros Hin. apply in_map_iff in Hin. destruct Hin as [o' [Ho' Hin]].
  assert (Hx : existsb (fun o' => String.eqb (order_id o') (order_id o)) (orders w) = true)
    by (apply existsb_exists; exists o'; split; [exact Hin|apply String.eqb_eq; exact Ho']).
  congruence.
Qed.

Lemma existsb_false_find {A} (f : A -> bool) l : existsb f l = false -> find f l = None.
Proof. induction l as [|a l IH]; simpl; [reflexivity|]. destruct (f a); [discriminate|exact IH]. Qed.

Lemma insert_order_taken o w :
  find_order (order_id o) w <> None -> insert_order o w = None.
Proof.
  unfold insert_order, find_order. intros H.
  destruct (existsb _ _) eqn:E; [reflexivity|].
  exfalso. apply H. apply existsb_false_find. exact E.
Qed.

Lemma insert_items_tables ok its w w' :
  insert_items ok its w = Some w' ->
  orders w' = orders w /\ deliveries w' = deliveries w.
Proof. unfold insert_items. destruct ok; intros H; [injection H as <-; auto | discriminate]. Qed.


(** C9 (corrected): a new order is stored with payment status Cod for the
    method "cod" and Pending otherwise, and with status Confirmed; it is
    Processing only when its shipment is booked in the same request, which
    then answers the created reply.  The reference is "PD" followed by the
    timestamp: a request whose reference is already taken answers the
    generic HTTP 500 and stores no order and no item, so the references in
    [orders] stay pairwise distinct. *)
Theorem create_order_initial_state req ts c ok ship w :
  (find_order (generate_order_id ts) w = None ->
   forall o, find_order (generate_order_id ts) (snd (create_order req ts c ok ship w)) = Some o ->
     payment_status o = (if String.eqb (req_paymentMethod req) "cod" then COD else PAY_PENDING) /\
     ((order_status o = PROCESSING /\
       fst (create_order req ts c ok ship w) = created_reply (generate_order_id ts) /\
       exists r, ship = Returned r /\ sh_success r = true) \/
      (order_status o = CONFIRMED /\
       fst (create_order req ts c ok ship w) <> created_reply (generate_order_id ts)))) /\
  (find_order (generate_order_id ts) w <> None ->
   fst (create_order req ts c ok ship w) = internal_error /\
   orders (snd (create_order req ts c ok ship w)) = orders w /\
   items (snd (create_order req ts c ok ship w)) = items w) /\
  (NoDup (map order_id (orders w)) ->
   NoDup (map order_id (orders (snd (create_order req ts c ok ship w))))).
Proof.
  split; [|split].
  - intros Hf o Hfo. unfold create_order in Hfo |- *. cbn zeta in Hfo |- *.
    destruct (get_or_create_customer req w) as [[w1 cid]|] eqn:Hg;
      [|cbn [snd] in Hfo; congruence].
    pose proof (get_or_create_customer_fresh _ _ _ _ _ Hg Hf) as Hf1.
    destruct (ch_subtotal (charges req c)) as [sub|]; [|cbn [snd] in Hfo; congruence].
    rewrite insert_order_fresh in Hfo |- * by exact Hf1.
    assert (Hnew : forall o0 its cs ds g, order_id o0 = generate_order_id ts ->
              find_order (generate_order_id ts)
                (mkWorld (orders w1 ++ [o0]) its cs ds g) = Some o0)
      by (intros; apply find_order_appended; assumption).
    destruct ok; cbn [insert_items orders items customers deliveries gateway_calls] in Hfo |- *;
      [|cbn [snd] in Hfo; rewrite Hnew in Hfo by reflexivity; injection Hfo as <-;
        split; [reflexivity|right; split; [reflexivity|discriminate]]].
    destruct (ch_total_weight _) as [tw|];
      [|cbn [snd] in Hfo; rewrite Hnew in Hfo by reflexivity; injection Hfo as <-;
        split; [reflexivity|right; split; [reflexivity|discriminate]]].
    destruct ship as [|r];
      [cbn [snd] in Hfo; rewrite Hnew in Hfo by reflexivity; injection Hfo as <-;
       split; [reflexivity|right; split; [reflexivity|discriminate]]|].
    destruct (sh_success r) eqn:Hs.
    + match type of Hfo with
      | context [insert_delivery ?d ?w4] => destruct (insert_delivery d w4) as [w5|] eqn:Hd
      end; cbn [fst snd] in Hfo |- *.
      * rewrite (find_insert_delivery _ _ _ _ Hd) in Hfo.
        erewrite find_update_self in Hfo; [| reflexivity | apply Hnew; reflexivity].
        injection Hfo as <-. split; [reflexivity|].
        left. split; [reflexivity|]. split; [reflexivity|]. exists r. auto.
      * rewrite Hnew in Hfo by reflexivity. injection Hfo as <-.
        split; [reflexivity|right; split; [reflexivity|discriminate]].
    + cbn [fst snd] in Hfo |- *.
      erewrite find_update_self in Hfo; [| reflexivity | apply Hnew; reflexivity].
      injection Hfo as <-. split; [reflexivity|right; split; [reflexivity|discriminate]].
  - intros Hex. unfold create_order. cbn zeta.
    destruct (get_or_create_customer req w) as [[w1 cid]|] eqn:Hg;
      [|split; [reflexivity|split; reflexivity]].
    destruct (get_or_create_customer_tables _ _ _ _ Hg) as [Ho [Hi _]].
    destruct (ch_subtotal _) as [sub|]; [|split; [reflexivity|split; assumption]].
    rewrite insert_order_taken; [split; [reflexivity|split; assumption]|].
    unfold find_order. rewrite Ho. exact Hex.
  - intros Hn. unfold create_order. cbn zeta.
    destruct (get_or_create_customer req w) as [[w1 cid]|] eqn:Hg; [|exact Hn].
    assert (Hn1 : NoDup (map order_id (orders w1)))
      by (destruct (get_or_create_customer_tables _ _ _ _ Hg) as [-> _]; exact Hn).
    destruct (ch_subtotal _) as [sub|]; [|exact Hn1].
    match goal with
    | |- context [match insert_order ?o w1 with _ => _ end] =>
        destruct (insert_order o w1) as [w2|] eqn:Ho
    end; [|exact Hn1].
    pose proof (ids_insert_order _ _ _ Ho Hn1) as Hn2.
    match goal with
    | |- context [match insert_items ok ?its w2 with _ => _ end] =>
        destruct (insert_items ok its w2) as [w3|] eqn:Hi
    end; [|exact Hn2].
    assert (Hn3 : NoDup (map order_id (orders w3)))
      by (destruct (insert_items_tables _ _ _ _ Hi) as [-> _]; exact Hn2).
    destruct (ch_total_weight _); [|exact Hn3].
    destruct ship as [|r]; [exact Hn3|].
    destruct (sh_success r).
    + match goal with
      | |- context [insert_delivery ?d ?w4] => destruct (insert_delivery d w4) as [w5|] eqn:Hd
      end; [|exact Hn3].
      simpl snd. rewrite (insert_delivery_orders _ _ _ Hd).
      rewrite ids_update_order by reflexivity. exact Hn3.
    + simpl snd. rewrite ids_update_order by reflexivity. exact Hn3.
Qed.

Lemma create_order_initial_state_witness :
  (forall o, find_order "PD20251026090000"
               (snd (create_order sample_request "20251026090000" 50%Z true
                       (Returned failed_shipment) empty_world)) = Some o ->
     payment_status o = PAY_PENDING /\
     ((order_status o = PROCESSING /\
       fst (create_order sample_request "20251026090000" 50%Z true
              (Returned failed_shipment) empty_world) = created_reply "PD20251026090000" /\
       exists r, Returned failed_shipment = Returned r /\ sh_success r = true) \/
      (order_status o = CONFIRMED /\
       fst (create_order sample_request "20251026090000" 50%Z true
              (Returned failed_shipment) empty_world) <> created_reply "PD20251026090000"))) /\
  (fst (create_order sample_request "20251026090000" 50%Z true
          (Returned failed_shipment) world_confirmed) = internal_error /\
   orders (snd (create_order sample_request "20251026090000" 50%Z true
                  (Returned failed_shipment) world_confirmed)) = orders world_confirmed /\
   items (snd (create_order sample_request "20251026090000" 50%Z true
                 (Returned failed_shipment) world_confirmed)) = items world_confirmed) /\
  NoDup (map order_id (orders (snd (create_order sample_request "20251026090000" 50%Z true
                                      (Returned failed_shipment) world_confirmed)))).
Proof.
  destruct (create_order_initial_state sample_request "20251026090000" 50%Z true
              (Returned failed_shipment) empty_world) as [Ha _].
  destruct (create_order_initial_state sample_request "20251026090000" 50%Z true
              (Returned failed_shipment) world_confirmed) as [_ [Hb Hc]].
  split; [apply Ha; reflexivity|].
  split; [apply Hb; discriminate|].
  apply Hc. constructor; [intros []|constructor].
Defined.

(** C9, counterexample: the order created at checkout is Confirmed, not
    Pending. *)
Lemma checkout_order_not_pending :
  option_map order_status
    (find_order "PD20251026090000"
       (snd (create_order sample_request "20251026090000" 50%Z true (Returned failed_shipment)
               empty_world))) = Some CONFIRMED.
Proof. vm_compute. reflexivity. Qed.




(** ** The delivered status *)






(* ------------------------------------------------------------------ *)
(** ** Phone numbers, shipping cost, serviceability, [/calculate] *)

Import PyStr ShiprocketSvc ShippingConfig OrdersHelpers.

Lemma filter_digits_all : forall s, all_digits s = true -> filter_digits s = s.
Proof.
  induction s as [|c s IH]; simpl; intros H; [reflexivity|].
  apply andb_true_iff in H as [H1 H2]. rewrite H1, IH; auto.
Qed.

Lemma format_fixed (q : string) :
  all_digits q = true ->
  (Str.is_prefix "91" q && (String.length q =? 12)) = false ->
  (Str.is_prefix "0" q && (String.length q =? 11)) = false ->
  format_phone_number q = q.
Proof.
  intros Hd H1 H2. unfold format_phone_number; cbv zeta.
  rewrite (filter_digits_all q Hd), H1, H2. reflexivity.
Qed.

Lemma len10_fixed (q : string) :
  all_digits q = true -> String.length q = 10 -> format_phone_number q = q.
Proof.
  intros Hd Hl. apply format_fixed; auto; rewrite Hl;
    destruct (Str.is_prefix _ q); reflexivity.
Qed.

(** A ten-digit number comes out unchanged from [format_phone_number],
    and so do its forms with a [91] country code, with a leading [0] and
    with a [+91 ] prefix. *)
Lemma format_phone_number_ten_digits (d : string)
    (Hd : all_digits d = true) (Hl : String.length d = 10) :
  format_phone_number d = d /\ format_phone_number ("91" ++ d) = d /\
  format_phone_number ("0" ++ d) = d /\ format_phone_number ("+91 " ++ d) = d.
Proof.
  assert (H91 : format_phone_number ("91" ++ d) = d).
  { unfold format_phone_number; cbv zeta.
    rewrite (filter_digits_all ("91" ++ d)) by (simpl; exact Hd).
    replace (Str.is_prefix "91" ("91" ++ d)) with true by reflexivity.
    replace (String.length ("91" ++ d)) with 12 by (simpl; lia).
    cbn [andb Nat.eqb drop append]. rewrite Hl.
    destruct (Str.is_prefix "0" d); reflexivity. }
  split; [apply len10_fixed; auto|].
  split; [exact H91|].
  split.
  - unfold format_phone_number; cbv zeta.
    rewrite (filter_digits_all ("0" ++ d)) by (simpl; exact Hd).
    replace (Str.is_prefix "91" ("0" ++ d)) with false by reflexivity.
    cbn [andb].
    replace (Str.is_prefix "0" ("0" ++ d)) with true by reflexivity.
    replace (String.length ("0" ++ d)) with 11 by (simpl; lia).
    reflexivity.
  - transitivity (format_phone_number ("91" ++ d)); [reflexivity | exact H91].
Qed.

(** From a subtotal of 999 the shipping cost is 0 whatever the
    serviceability check answers; below 999 a check that raised, or one
    that does not report the pincode serviceable, gives the flat 50. *)
Lemma calculate_shipping_cost_fallbacks (subtotal : Z) (is_cod : bool) :
  ((999 <= subtotal)%Z -> forall result, calculate_shipping_cost subtotal is_cod result = 0%Z) /\
  ((subtotal < 999)%Z ->
     calculate_shipping_cost subtotal is_cod Raised = 50%Z /\
     forall r, sv_serviceable r <> Some true ->
       calculate_shipping_cost subtotal is_cod (Returned r) = 50%Z).
Proof.
  unfold calculate_shipping_cost.
  split; [intros H r; destruct (Z.leb_spec 999 subtotal); [reflexivity | lia]|].
  intros H. destruct (Z.leb_spec 999 subtotal); [lia|].
  split.
  - destruct (Z.ltb_spec subtotal 999); [reflexivity | lia].
  - intros r Hr. destruct (sv_serviceable r) as [[|]|]; [congruence | reflexivity | reflexivity].
Qed.

(** In debug mode the serviceability check is the mock one, so below 999
    the shipping cost is 50 for a metro prefix and 70 for any other
    pincode, whatever the payment method: no COD charge is ever added. *)
Lemma debug_shipping_cost (subtotal : Z) (is_cod : bool) (pincode : string)
    (resp : Adapter (option (list Courier))) :
  calculate_shipping_cost subtotal is_cod
      (Returned (check_pincode_serviceability true pincode resp)) =
  (if (999 <=? subtotal)%Z then 0
   else if existsb (String.eqb (take 3 pincode)) metro_cities then 50 else 70)%Z.
Proof.
  unfold calculate_shipping_cost, check_pincode_serviceability, mock_serviceability.
  cbv zeta. destruct (999 <=? subtotal)%Z; [reflexivity|].
  cbn [sv_serviceable sv_shipping_charge sv_cod_charges dflt].
  destruct (existsb _ _); destruct is_cod; reflexivity.
Qed.

Lemma min_by_rate_spec : forall cs c0 b, min_by_rate c0 cs = b ->
  (b = c0 /\ forall x, In x cs -> (get_rate c0 <= get_rate x)%Z) \/
  (exists pre post, cs = (pre ++ b :: post)%list /\ (get_rate b < get_rate c0)%Z /\
     (forall x, In x pre -> (get_rate b < get_rate x)%Z) /\
     (forall x, In x cs -> (get_rate b <= get_rate x)%Z)).
Proof.
  unfold min_by_rate.
  induction cs as [|x cs IH]; intros c0 b Hb; simpl in Hb.
  - left. split; [symmetry; exact Hb | intros y []].
  - revert Hb. destruct (Z.ltb_spec (get_rate x) (get_rate c0)) as [Hlt|Hge]; intros Hb.
    + destruct (IH x b Hb) as [[-> Hall] | (pre & post & Hcs & Hbx & Hpre & Hall)].
      * right. exists [], cs. split; [reflexivity|]. split; [exact Hlt|].
        split; [intros y []|].
        intros y [<-|Hy]; [lia | apply Hall; exact Hy].
      * right. exists (x :: pre), post. split; [rewrite Hcs; reflexivity|].
        split; [lia|]. split.
        -- intros y [<-|Hy]; [exact Hbx | apply Hpre; exact Hy].
        -- intros y [<-|Hy]; [lia | apply Hall; exact Hy].
    + destruct (IH c0 b Hb) as [[-> Hall] | (pre & post & Hcs & Hbx & Hpre & Hall)].
      * left. split; [reflexivity|]. intros y [<-|Hy]; [exact Hge | apply Hall; exact Hy].
      * right. exists (x :: pre), post. split; [rewrite Hcs; reflexivity|].
        split; [exact Hbx|]. split.
        -- intros y [<-|Hy]; [lia | apply Hpre; exact Hy].
        -- intros y [<-|Hy]; [lia | apply Hall; exact Hy].
Qed.

Lemma find_split {A} (f : A -> bool) : forall l c, find f l = Some c ->
  exists pre post, l = (pre ++ c :: post)%list /\ f c = true /\
    forall x, In x pre -> f x = false.
Proof.
  induction l as [|x l IH]; intros c H; simpl in H; [discriminate|].
  destruct (f x) eqn:Ef.
  - injection H as <-. exists [], l. split; [reflexivity|]. split; [exact Ef | intros y []].
  - destruct (IH c H) as (pre & post & -> & Hc & Hpre).
    exists (x :: pre), post. split; [reflexivity|]. split; [exact Hc|].
    intros y [<-|Hy]; [exact Ef | apply Hpre; exact Hy].
Qed.

(** The courier chosen by the live serviceability check is the first
    Amazon Shipping Surface courier of the list; when there is none, it
    is a courier of least [get_rate], and every courier listed before it
    has a strictly greater rate (the first cheapest). *)
Lemma select_courier_spec (cs : list Courier) (c : Courier)
    (H : select_courier cs = Some c) :
  exists pre post, cs = (pre ++ c :: post)%list /\
   ((is_amazon_surface c = true /\ forall x, In x pre -> is_amazon_surface x = false) \/
    ((forall x, In x cs -> is_amazon_surface x = false) /\
     (forall x, In x pre -> (get_rate c < get_rate x)%Z) /\
     (forall x, In x cs -> (get_rate c <= get_rate x)%Z))).
Proof.
  unfold select_courier in H.
  destruct (find is_amazon_surface cs) as [a|] eqn:Ef.
  - injection H as <-. destruct (find_split _ cs a Ef) as (pre & post & Hcs & Ha & Hpre).
    exists pre, post. split; [exact Hcs|]. left; split; assumption.
  - assert (Hn : forall x, In x cs -> is_amazon_surface x = false)
      by (intros x Hx; exact (find_none _ _ Ef x Hx)).
    destruct cs as [|c0 rest]; [discriminate|].
    injection H as H.
    destruct (min_by_rate_spec rest c0 c H) as [[-> Hall] | (pre & post & Hcs & Hlt & Hpre & Hall)].
    + exists [], rest. split; [reflexivity|]. right. split; [exact Hn|].
      split; [intros y []|]. intros y [<-|Hy]; [lia | apply Hall; exact Hy].
    + exists (c0 :: pre), post. split; [rewrite Hcs; reflexivity|]. right.
      split; [exact Hn|]. split.
      * intros y [<-|Hy]; [exact Hlt | apply Hpre; exact Hy].
      * intros y [<-|Hy]; [lia | apply Hall; exact Hy].
Qed.

Lemma format_user_phone_cases (phone : string) :
  (Str.is_prefix "91" phone = true /\ format_user_phone phone = phone) \/
  (Str.is_prefix "91" phone = false /\ String.length phone = 10 /\
     format_user_phone phone = "91" ++ phone) \/
  (Str.is_prefix "91" phone = false /\ String.length phone <> 10 /\
     format_user_phone phone = phone).
Proof.
  unfold format_user_phone.
  destruct (Str.is_prefix "91" phone) eqn:E1; [left; auto|].
  destruct (Nat.eqb_spec (String.length phone) 10); [right; left | right; right]; auto.
Qed.

(** The phone lookup of [GET /user/phone/{phone}] is insensitive to the
    [91] country code of a ten-character number that does not start with
    [91]: the bare number and its [91] form list the same orders.  A
    ten-character number that does start with [91] is looked up as it
    is, and the formatting is idempotent. *)
Lemma get_user_orders_by_phone_country_code (d : string) (w : World) :
  (Str.is_prefix "91" d = false -> String.length d = 10 ->
     get_user_orders_by_phone d w = get_user_orders_by_phone ("91" ++ d) w) /\
  (Str.is_prefix "91" d = true -> format_user_phone d = d) /\
  format_user_phone (format_user_phone d) = format_user_phone d.
Proof.
  split; [|split].
  - intros H1 H2. unfold get_user_orders_by_phone. f_equal.
    unfold format_user_phone. rewrite H1, H2. reflexivity.
  - intros H. unfold format_user_phone. rewrite H. reflexivity.
  - destruct (format_user_phone_cases d) as [(H1 & ->) | [(H1 & H2 & ->) | (H1 & H2 & ->)]].
    + unfold format_user_phone. rewrite H1. reflexivity.
    + reflexivity.
    + unfold format_user_phone. rewrite H1. destruct (Nat.eqb_spec (String.length d) 10); [lia|].
      reflexivity.
Qed.

(** [GET /{order_id}] never returns an order: an unknown reference gets
    404 "Order not found", and an existing order fails with a 500 (the
    [AttributeError] on [shiprocket_order_id]). *)
Lemma get_order_never_returns_order (ref : string) (w : World) :
  (find_order ref w = None <-> get_order ref w = HttpError 404 "Order not found") /\
  (forall o, find_order ref w = Some o ->
     get_order ref w = HttpError 500 "AttributeError: shiprocket_order_id") /\
  (forall body, get_order ref w <> Json body).
Proof.
  unfold get_order.
  destruct (find_order ref w) as [o|]; repeat split; intros; try discriminate; auto.
Qed.

(* ------------------------------------------------------------------ *)
(** ** Payments, configuration and waybills *)

(** [POST /cod] always answers the same success reply.  It leaves the
    tables unchanged for an unknown order or when the commit fails;
    otherwise the order becomes a COD order whose payment is pending,
    whatever its payment status was (a paid order included), and keeps its
    order status and total. *)
Lemma process_cod_order_effect (ref : string) (db_error : bool) (now : nat) (w : World) :
  fst (PaymentSvc.process_cod_order ref db_error now w) =
    Json [("success", "true"); ("message", "COD order placed successfully");
          ("order_id", ref); ("payment_method", "cod"); ("payment_status", "pending")] /\
  (find_order ref w = None \/ db_error = true ->
     snd (PaymentSvc.process_cod_order ref db_error now w) = w) /\
  (forall o, find_order ref w = Some o -> db_error = false ->
     exists o', find_order ref (snd (PaymentSvc.process_cod_order ref db_error now w)) = Some o' /\
       payment_method o' = "cod" /\ payment_status o' = PAY_PENDING /\
       order_status o' = order_status o /\ total o' = total o).
Proof.
  unfold PaymentSvc.process_cod_order. cbn [fst snd].
  split; [reflexivity|]. split.
  - intros [H|H]; [rewrite H; reflexivity|]. destruct (find_order ref w); rewrite ?H; reflexivity.
  - intros o Ho He. rewrite Ho, He.
    exists (PaymentSvc.set_cod now o). split; [|repeat split].
    apply find_update_self; [reflexivity | exact Ho].
Qed.

(** Without a Razorpay client, or with the placeholder secret,
    [verify_payment] verifies every signature with a mock answer; with a
    client it verifies exactly when the signature equals the computed
    HMAC and the payment fetch succeeds. *)
Lemma verify_payment_spec (ps : PaymentSvc.PaymentService)
    (oid pid sig gen : string) (fetch : Adapter PaymentSvc.PaymentInfo) :
  (PaymentSvc.has_client ps && negb (String.eqb (PaymentSvc.key_secret ps) "your_secret_here") = false ->
     PaymentSvc.vr_verified (PaymentSvc.verify_payment ps oid pid sig gen fetch) = true /\
     PaymentSvc.vr_mock (PaymentSvc.verify_payment ps oid pid sig gen fetch) = true) /\
  (PaymentSvc.has_client ps && negb (String.eqb (PaymentSvc.key_secret ps) "your_secret_here") = true ->
     (PaymentSvc.vr_verified (PaymentSvc.verify_payment ps oid pid sig gen fetch) = true <->
      sig = gen /\ fetch <> Raised)).
Proof.
  unfold PaymentSvc.verify_payment. split; intros H; rewrite H; [split; reflexivity|].
  destruct (String.eqb_spec gen sig) as [->|Hne].
  - destruct fetch; simpl; split.
    + discriminate.
    + intros [_ Hr]. exfalso. apply Hr. reflexivity.
    + intros _. split; [reflexivity | discriminate].
    + reflexivity.
  - simpl. split; [discriminate|]. intros [-> _]. exfalso. apply Hne. reflexivity.
Qed.


(** [GET /status/{payment_id}] always reports success: a failed fetch
    from Razorpay is reported as a captured mock payment of amount 0, and
    without a client the status is ["unknown"] with amount 0. *)
Lemma check_payment_status_spec (ps : PaymentSvc.PaymentService) (pid : string)
    (api : Adapter PaymentSvc.PaymentInfo) (now_iso : string) :
  PaymentSvc.st_success (PaymentSvc.check_payment_status pid (PaymentSvc.fetch_payment ps api) now_iso)
    = true /\
  (PaymentSvc.has_client ps = true -> api = Raised ->
     PaymentSvc.st_status (PaymentSvc.check_payment_status pid (PaymentSvc.fetch_payment ps api) now_iso)
       = "captured" /\
     PaymentSvc.st_mock (PaymentSvc.check_payment_status pid (PaymentSvc.fetch_payment ps api) now_iso)
       = true /\
     PaymentSvc.st_amount_paise
       (PaymentSvc.check_payment_status pid (PaymentSvc.fetch_payment ps api) now_iso) = 0%Z) /\
  (PaymentSvc.has_client ps = false ->
     PaymentSvc.st_status (PaymentSvc.check_payment_status pid (PaymentSvc.fetch_payment ps api) now_iso)
       = "unknown" /\
     PaymentSvc.st_amount_paise
       (PaymentSvc.check_payment_status pid (PaymentSvc.fetch_payment ps api) now_iso) = 0%Z).
Proof.
  unfold PaymentSvc.fetch_payment.
  split; [destruct (PaymentSvc.has_client ps), api; reflexivity|].
  split.
  - intros H ->. rewrite H. repeat split.
  - intros H. rewrite H. split; reflexivity.
Qed.

(** The free-shipping configuration is consistent with itself: the amount
    still needed is never negative, is 0 exactly for an eligible subtotal,
    and added to the subtotal always reaches the threshold; an eligible
    subtotal is charged no shipping, any other the calculated charge. *)
Lemma shipping_config_consistent (s c : Z) :
  (get_amount_needed_for_free_shipping s = 0%Z <-> is_free_shipping_eligible s = true) /\
  (0 <= get_amount_needed_for_free_shipping s)%Z /\
  (FREE_SHIPPING_THRESHOLD <= s + get_amount_needed_for_free_shipping s)%Z /\
  get_shipping_charge s c = (if is_free_shipping_eligible s then 0%Z else c).
Proof.
  unfold get_shipping_charge, get_amount_needed_for_free_shipping, is_free_shipping_eligible.
  cbv zeta.
  destruct (Z.ltb_spec 0 (FREE_SHIPPING_THRESHOLD - s));
    destruct (Z.leb_spec FREE_SHIPPING_THRESHOLD s);
    repeat split; intros; first [reflexivity | lia | discriminate].
Qed.

(** The shipping cost of the order routes ignores this configuration: a
    subtotal from 999 up to the configured threshold ships for free in
    [calculate_shipping_cost], although [is_free_shipping_eligible] is
    false for it and [get_shipping_charge] would charge shipping. *)
Lemma shipping_threshold_mismatch (s c : Z) (is_cod : bool) (r : Adapter SvResult)
    (H1 : (999 <= s)%Z) (H2 : (s < FREE_SHIPPING_THRESHOLD)%Z) :
  calculate_shipping_cost s is_cod r = 0%Z /\
  is_free_shipping_eligible s = false /\
  get_shipping_charge s c = c /\
  get_amount_needed_for_free_shipping s = (FREE_SHIPPING_THRESHOLD - s)%Z.
Proof.
  unfold calculate_shipping_cost, get_shipping_charge, is_free_shipping_eligible,
    get_amount_needed_for_free_shipping.
  destruct (Z.leb_spec 999 s); [|lia].
  destruct (Z.leb_spec FREE_SHIPPING_THRESHOLD s); [lia|].
  cbv zeta. destruct (Z.ltb_spec 0 (FREE_SHIPPING_THRESHOLD - s)); [|lia].
  repeat split.
Qed.

(** The waybill number of an order id made by [generate_order_id] is
    ["PDEL"] followed by the same timestamp, and the order id is recovered
    from it by dropping ["PDEL"] and putting back ["PD"]. *)
Lemma generate_waybill_number_roundtrip (ts : string) :
  OrderIdGen.generate_waybill_number (generate_order_id ts) = "PDEL" ++ ts /\
  generate_order_id (drop 4 (OrderIdGen.generate_waybill_number (generate_order_id ts)))
    = generate_order_id ts.
Proof. split; reflexivity. Qed.

(* ------------------------------------------------------------------ *)
(** ** Shipping charges by weight, [/calculate-shipping] *)

Import ShippingCharges QArith Lqa.

(** Turn the [Qle_bool] tests of the goal into hypotheses on [Q]. *)
Ltac q_bool_cases :=
  repeat match goal with
  | |- context [Qle_bool ?x ?y] =>
      let E := fresh "E" in
      destruct (Qle_bool x y) eqn:E;
      [ apply Qle_bool_iff in E
      | let E' := fresh "E" in
        assert (E' : ~ (x <= y)%Q) by (rewrite <- Qle_bool_iff; congruence);
        apply Qnot_le_lt in E'; clear E ]
  end.

Lemma find_map_cc (l : list ChargeCourier) :
  find is_amazon_surface (map cc_courier l)
  = option_map cc_courier (find (fun c => is_amazon_surface (cc_courier c)) l).
Proof.
  induction l as [|a l IH]; [reflexivity|]. simpl.
  destruct (is_amazon_surface (cc_courier a)); [reflexivity | exact IH].
Qed.

Lemma fold_cc (rest : list ChargeCourier) (c0 : ChargeCourier) :
  cc_courier (fold_left (fun best c =>
      if (get_rate (cc_courier c) <? get_rate (cc_courier best))%Z then c else best) rest c0)
  = min_by_rate (cc_courier c0) (map cc_courier rest).
Proof.
  unfold min_by_rate. revert c0.
  induction rest as [|a rest IH]; intros c0; [reflexivity|]. simpl.
  rewrite IH. destruct (get_rate (cc_courier a) <? get_rate (cc_courier c0))%Z; reflexivity.
Qed.

Lemma select_charge_courier_map (cs : list ChargeCourier) :
  select_courier (map cc_courier cs) = option_map cc_courier (select_charge_courier cs).
Proof.
  unfold select_courier, select_charge_courier. rewrite find_map_cc.
  destruct (find _ cs) as [c|]; [reflexivity|].
  destruct cs as [|c0 rest]; [reflexivity|]. simpl. rewrite fold_cc. reflexivity.
Qed.

Lemma calculate_shipping_charges_some (debug : bool) (p : string) (w ca : Q)
    (resp : Adapter (option (list ChargeCourier))) :
  exists r, calculate_shipping_charges debug p w (Some ca) resp = Some r /\
    cg_total_charge r = (cg_shipping_charge r + cg_cod_charge r)%Q /\
    (Qle_bool ca 0 = true -> cg_cod_charge r = 0%Q).
Proof.
  assert (Hm : exists r, mock_shipping_charges p w (Some ca) = Some r /\
    cg_total_charge r = (cg_shipping_charge r + cg_cod_charge r)%Q /\
    (Qle_bool ca 0 = true -> cg_cod_charge r = 0%Q)).
  { eexists. split; [reflexivity|]. cbn [cg_total_charge cg_shipping_charge cg_cod_charge].
    split; [reflexivity|]. intros E. rewrite E. reflexivity. }
  unfold calculate_shipping_charges.
  destruct debug; [exact Hm|].
  destruct resp as [|[cs|]]; try exact Hm.
  destruct (select_charge_courier cs) as [c|]; [|exact Hm].
  eexists. split; [reflexivity|]. unfold of_charge_courier. cbv zeta.
  cbn [cg_total_charge cg_shipping_charge cg_cod_charge].
  split; [reflexivity|]. intros E. rewrite E. reflexivity.
Qed.

(** The mock shipping charge never decreases with the weight, and a metro
    pincode is never charged more than another pincode for the same or a
    greater weight; the least mock charge is 35.  The COD charge is 40 for
    a positive COD amount and 0 otherwise, the total is the sum of the
    two, and without a COD amount ([None]) the mock raises. *)
Lemma mock_shipping_charges_tiers (p1 p2 : string) (w1 w2 ca1 ca2 : Q) (r1 r2 : ChargeResult)
    (H1 : mock_shipping_charges p1 w1 (Some ca1) = Some r1)
    (H2 : mock_shipping_charges p2 w2 (Some ca2) = Some r2) :
  ((w1 <= w2)%Q ->
   (existsb (String.eqb (take 3 p2)) metro_cities = true ->
    existsb (String.eqb (take 3 p1)) metro_cities = true) ->
   (cg_shipping_charge r1 <= cg_shipping_charge r2)%Q) /\
  (35 <= cg_shipping_charge r1)%Q /\
  ((0 < ca1)%Q -> cg_cod_charge r1 = 40%Q) /\
  ((ca1 <= 0)%Q -> cg_cod_charge r1 = 0%Q) /\
  cg_total_charge r1 = (cg_shipping_charge r1 + cg_cod_charge r1)%Q /\
  mock_shipping_charges p1 w1 None = None.
Proof.
  unfold mock_shipping_charges in H1, H2. cbv zeta in H1, H2.
  destruct (existsb (String.eqb (take 3 p1)) metro_cities);
  destruct (existsb (String.eqb (take 3 p2)) metro_cities);
  injection H1 as <-; injection H2 as <-;
  cbn [cg_shipping_charge cg_cod_charge cg_total_charge];
  ((split; [|split; [|split; [|split; [|split]]]]);
  [ intros Hw Hm; try (specialize (Hm eq_refl); discriminate); q_bool_cases; lra
  | q_bool_cases; lra
  | intros Hc; destruct (Qle_bool ca1 0) eqn:E; [apply Qle_bool_iff in E; lra | reflexivity]
  | intros Hc; apply Qle_bool_iff in Hc; rewrite Hc; reflexivity
  | reflexivity
  | reflexivity ]).
Qed.

(** Outside debug mode, with a COD amount, [/calculate-shipping] quotes the
    courier that [check_pincode_serviceability] selects from the same list.
    Its shipping charge is the courier's first non-zero [rate] or
    [freight_charge], which is also the charge [check_pincode_serviceability]
    reports; when both are 0 or absent it is the courier's [total_charge]
    when non-zero (else 50), where [check_pincode_serviceability] reports
    50.  The total is the shipping charge plus the COD charge. *)
Lemma live_calculate_shipping_charges (pincode : string) (weight ca : Q)
    (cs : list ChargeCourier) (c : ChargeCourier)
    (H : select_charge_courier cs = Some c) :
  let k := cc_courier c in
  select_courier (map cc_courier cs) = Some k /\
  exists r,
    calculate_shipping_charges false pincode weight (Some ca) (Returned (Some cs)) = Some r /\
    cg_total_charge r = (cg_shipping_charge r + cg_cod_charge r)%Q /\
    (forall z, py_or_z (cr_rate k) (cr_freight_charge k) = Some z -> z <> 0%Z ->
       cg_shipping_charge r = inject_Z z /\
       sv_shipping_charge
         (check_pincode_serviceability false pincode (Returned (Some (map cc_courier cs))))
       = Some z) /\
    ((forall z, py_or_z (cr_rate k) (cr_freight_charge k) = Some z -> z = 0%Z) ->
       cg_shipping_charge r = inject_Z (dflt 50%Z (py_or_z (cr_total_charge k) (Some 50%Z))) /\
       sv_shipping_charge
         (check_pincode_serviceability false pincode (Returned (Some (map cc_courier cs))))
       = Some 50%Z).
Proof.
  cbv zeta.
  assert (Hsel : select_courier (map cc_courier cs) = Some (cc_courier c))
    by (rewrite select_charge_courier_map, H; reflexivity).
  split; [exact Hsel|].
  exists (of_charge_courier c ca).
  split; [unfold calculate_shipping_charges; rewrite H; reflexivity|].
  unfold check_pincode_serviceability. rewrite Hsel.
  unfold of_charge_courier, of_courier. cbv zeta.
  cbn [cg_total_charge cg_shipping_charge cg_cod_charge sv_shipping_charge].
  split; [reflexivity|]. split.
  - intros z Hz Hnz. rewrite Hz.
    assert (E0 : (z =? 0)%Z = false) by (apply Z.eqb_neq; exact Hnz).
    cbn [py_or_z]. rewrite !E0. cbn [py_or_z dflt]. rewrite ?E0. split; reflexivity.
  - intros Hz. destruct (py_or_z (cr_rate (cc_courier c)) (cr_freight_charge (cc_courier c)))
      as [z|] eqn:E.
    + rewrite (Hz z eq_refl). cbn [py_or_z Z.eqb]. split; [|reflexivity].
      destruct (cr_total_charge (cc_courier c)) as [t|]; reflexivity.
    + cbn [py_or_z]. split; [|reflexivity].
      destruct (cr_total_charge (cc_courier c)) as [t|]; reflexivity.
Qed.

(** The ["calculate_shipping"] action refuses a missing or empty pincode,
    and a missing or zero weight, with HTTP 400.  Otherwise a request whose
    [cod_amount] is [null] fails with HTTP 500 (the [TypeError] of
    [None > 0]), in debug mode or not and whatever Shiprocket answers; any
    other request succeeds, with a total charge equal to the shipping
    charge plus the COD charge and no COD charge for a COD amount that is
    not positive. *)
Lemma calculate_shipping_action (debug : bool) (resp : Adapter (option (list ChargeCourier)))
    (pincode : option string) (weight cod_amount : option Q) :
  let svc := fun p w c => calculate_shipping_charges debug p w c resp in
  (pincode = None \/ pincode = Some "" \/ weight = None \/
   (exists wt, weight = Some wt /\ (wt == 0)%Q) ->
     calculate_shipping pincode weight cod_amount svc = HErr 400 "Pincode and weight required") /\
  (forall p wt, pincode = Some p -> weight = Some wt -> p <> "" -> ~ (wt == 0)%Q ->
     (cod_amount = None ->
        calculate_shipping pincode weight cod_amount svc
        = HErr 500 "'>' not supported between instances of 'NoneType' and 'int'") /\
     (forall ca, cod_amount = Some ca ->
        exists rep, calculate_shipping pincode weight cod_amount svc = HOk rep /\
          sh_total_charge rep = (sh_shipping_charge rep + sh_cod_charge rep)%Q /\
          ((ca <= 0)%Q -> sh_cod_charge rep = 0%Q))).
Proof.
  cbv zeta. unfold calculate_shipping. split.
  - intros [-> | [-> | [-> | (wt & -> & Hw)]]].
    + reflexivity.
    + destruct weight; reflexivity.
    + destruct pincode; reflexivity.
    + destruct pincode as [p|]; [|reflexivity].
      apply Qeq_bool_iff in Hw. rewrite Hw, orb_true_r. reflexivity.
  - intros p wt -> -> Hp Hw.
    replace (String.eqb p "" || Qeq_bool wt 0) with false.
    2:{ symmetry. apply orb_false_intro.
        - apply String.eqb_neq. exact Hp.
        - destruct (Qeq_bool wt 0) eqn:E; [|reflexivity].
          apply Qeq_bool_iff in E. contradiction. }
    split.
    + intros ->. unfold calculate_shipping_charges, mock_shipping_charges.
      destruct debug; [reflexivity|]. reflexivity.
    + intros ca ->.
      destruct (calculate_shipping_charges_some debug p wt ca resp) as (r & Hr & Ht & Hc).
      rewrite Hr. eexists. split; [reflexivity|]. cbn [sh_total_charge sh_shipping_charge sh_cod_charge].
      split; [exact Ht|]. intros Hca. apply Hc. apply Qle_bool_iff. exact Hca.
Qed.

Close Scope Q_scope.

(* ------------------------------------------------------------------ *)
(** ** Witnesses of the properties above *)

Import ServiceSamples.

Lemma format_phone_number_ten_digits_witness :
  all_digits "8887948909" = true /\ String.length "8887948909" = 10 /\
  format_phone_number ("+91 " ++ "8887948909") = "8887948909".
Proof.
  split; [reflexivity|]. split; [reflexivity|].
  exact (proj2 (proj2 (proj2 (format_phone_number_ten_digits "8887948909" eq_refl eq_refl)))).
Defined.

Lemma calculate_shipping_cost_fallbacks_witness :
  (500 < 999)%Z /\ calculate_shipping_cost 500 true (Returned not_serviceable) = 50%Z /\
  (999 <= 1200)%Z /\ calculate_shipping_cost 1200 true Raised = 0%Z.
Proof.
  split; [lia|]. split.
  - apply (proj2 (proj2 (calculate_shipping_cost_fallbacks 500 true) ltac:(lia))).
    vm_compute. discriminate.
  - split; [lia|]. apply (proj1 (calculate_shipping_cost_fallbacks 1200 true)). lia.
Defined.

Lemma select_courier_spec_witness :
  select_courier sample_couriers = Some courier_ekart /\
  forall x, In x sample_couriers -> (get_rate courier_ekart <= get_rate x)%Z.
Proof.
  split; [reflexivity|].
  destruct (select_courier_spec sample_couriers courier_ekart eq_refl)
    as (pre & post & _ & [[Ha _] | (_ & _ & Hall)]).
  - vm_compute in Ha. discriminate Ha.
  - exact Hall.
Defined.

Lemma get_user_orders_by_phone_country_code_witness :
  Str.is_prefix "91" "9876543210" = false /\ String.length "9876543210" = 10 /\
  get_user_orders_by_phone "9876543210" phone_world = [Samples.delivered_order].
Proof.
  split; [reflexivity|]. split; [reflexivity|].
  rewrite (proj1 (get_user_orders_by_phone_country_code "9876543210" phone_world) eq_refl eq_refl).
  reflexivity.
Defined.

Lemma process_cod_order_effect_witness :
  find_order "PD20251027120000" (world_at PAID CONFIRMED) = Some (order_at PAID CONFIRMED) /\
  exists o',
    find_order "PD20251027120000"
      (snd (PaymentSvc.process_cod_order "PD20251027120000" false 5 (world_at PAID CONFIRMED)))
    = Some o' /\ payment_status o' = PAY_PENDING.
Proof.
  split; [reflexivity|].
  destruct (proj2 (proj2 (process_cod_order_effect "PD20251027120000" false 5
                            (world_at PAID CONFIRMED)))
              (order_at PAID CONFIRMED) eq_refl eq_refl) as (o' & H1 & _ & H3 & _).
  exists o'. split; assumption.
Defined.

Lemma verify_payment_spec_witness :
  PaymentSvc.has_client live_service
    && negb (String.eqb (PaymentSvc.key_secret live_service) "your_secret_here") = true /\
  PaymentSvc.vr_verified
    (PaymentSvc.verify_payment live_service "order_1" "pay_1" "abc" "abc" (Returned sample_payment))
  = true.
Proof.
  split; [reflexivity|].
  apply (proj2 (verify_payment_spec live_service "order_1" "pay_1" "abc" "abc"
                  (Returned sample_payment)) eq_refl).
  split; [reflexivity | discriminate].
Defined.


Lemma check_payment_status_spec_witness :
  PaymentSvc.has_client live_service = true /\
  PaymentSvc.st_status
    (PaymentSvc.check_payment_status "pay_1" (PaymentSvc.fetch_payment live_service Raised)
       "2025-10-26T09:00:00") = "captured".
Proof.
  split; [reflexivity|].
  exact (proj1 (proj1 (proj2 (check_payment_status_spec live_service "pay_1" Raised
                                "2025-10-26T09:00:00")) eq_refl eq_refl)).
Defined.

Lemma shipping_threshold_mismatch_witness :
  (999 <= 1500)%Z /\ (1500 < FREE_SHIPPING_THRESHOLD)%Z /\
  calculate_shipping_cost 1500 true Raised = 0%Z /\ is_free_shipping_eligible 1500 = false.
Proof.
  assert (H1 : (999 <= 1500)%Z) by lia.
  assert (H2 : (1500 < FREE_SHIPPING_THRESHOLD)%Z) by (unfold FREE_SHIPPING_THRESHOLD; lia).
  split; [exact H1|]. split; [exact H2|].
  destruct (shipping_threshold_mismatch 1500 50 true Raised H1 H2) as (E1 & E2 & _).
  split; assumption.
Defined.

Lemma mock_shipping_charges_tiers_witness :
  exists r1 r2,
    mock_shipping_charges "110001" 0.4%Q (Some 100%Q) = Some r1 /\
    mock_shipping_charges "212601" 6.5%Q (Some 0%Q) = Some r2 /\
    (cg_shipping_charge r1 <= cg_shipping_charge r2)%Q /\ cg_cod_charge r1 = 40%Q.
Proof.
  eexists. eexists. split; [reflexivity|]. split; [reflexivity|].
  destruct (mock_shipping_charges_tiers "110001" "212601" 0.4%Q 6.5%Q 100%Q 0%Q _ _
              eq_refl eq_refl) as (Hm & _ & Hc & _).
  split.
  - apply Hm; [apply Qle_bool_iff; reflexivity | intros _; reflexivity].
  - apply Hc. reflexivity.
Defined.

Lemma live_calculate_shipping_charges_witness :
  select_charge_courier sample_charge_couriers
    = Some (mkChargeCourier courier_ekart None) /\
  exists r,
    calculate_shipping_charges false "212601" 1%Q (Some 0%Q)
      (Returned (Some sample_charge_couriers)) = Some r /\
    cg_shipping_charge r = inject_Z 40 /\
    sv_shipping_charge (check_pincode_serviceability false "212601"
      (Returned (Some (map cc_courier sample_charge_couriers)))) = Some 50%Z.
Proof.
  split; [reflexivity|].
  destruct (live_calculate_shipping_charges "212601" 1%Q 0%Q sample_charge_couriers _ eq_refl)
    as [_ (r & Hr & _ & _ & H2)].
  exists r. split; [exact Hr|].
  apply H2. intros z Hz. discriminate Hz.
Defined.
